(** * RapidWire client: a shallow embedding of [rapidwire.py]

    The client is a thin layer over the [requests] library: every public
    operation builds one request, hands it to the session, and turns the
    answer into a dataclass instance or into a [RapidWireAPIError].

    Python values are dynamically typed, so the embedding has one universe of
    values ([pyval]); strings are sequences of Unicode code points; functions
    that can raise return a [result]; the network is an oracle of the section
    [Client], and every request handed to it and every line printed is
    recorded in a list of events. *)

From Stdlib Require Import List ZArith NArith Bool Lia String Ascii.
Import ListNotations.

Set Implicit Arguments.
Unset Strict Implicit.

(** ** Strings

    A Python [str] is a sequence of code points.  String literals of the
    source are written with [lit], which reads the UTF-8 bytes of a Rocq
    string literal. *)

Definition str := list N.

Module Utf8.

Definition byte_of (a : ascii) : N := N_of_ascii a.

Fixpoint bytes_of (s : string) : list N :=
  match s with
  | EmptyString => []
  | String a s' => byte_of a :: bytes_of s'
  end.

Definition cont (b : N) : N := N.land b 63.

(** Decoding of well-formed UTF-8; a byte that starts no sequence is kept
    as it is. *)
Fixpoint decode (bs : list N) : str :=
  match bs with
  | [] => []
  | b0 :: r0 =>
      if (b0 <? 128)%N then b0 :: decode r0
      else if (b0 <? 224)%N then
        match r0 with
        | b1 :: r1 => (N.land b0 31 * 64 + cont b1)%N :: decode r1
        | [] => [b0]
        end
      else if (b0 <? 240)%N then
        match r0 with
        | b1 :: b2 :: r2 =>
            (N.land b0 15 * 4096 + cont b1 * 64 + cont b2)%N :: decode r2
        | _ => b0 :: decode r0
        end
      else
        match r0 with
        | b1 :: b2 :: b3 :: r3 =>
            (N.land b0 7 * 262144 + cont b1 * 4096 + cont b2 * 64 + cont b3)%N
              :: decode r3
        | _ => b0 :: decode r0
        end
  end.

End Utf8.

Definition lit (s : string) : str := Utf8.decode (Utf8.bytes_of s).

Definition str_eqb (a b : str) : bool :=
  if list_eq_dec N.eq_dec a b then true else false.

(** ** Case mapping

    [str.upper] maps every code point through the full uppercase mapping of
    the Unicode character database and concatenates the results; it looks at
    no context.  [UnicodeData.uppercase] lists, for Unicode 14.0, every code
    point above the ASCII range whose mapping is not the code point itself
    (UnicodeData.txt and the unconditional entries of SpecialCasing.txt). *)

Module UnicodeData.

Definition uppercase : list (N * list N) := [
  (181, [924]); (223, [83; 83]); (224, [192]); (225, [193]); (226, [194]);
  (227, [195]); (228, [196]); (229, [197]); (230, [198]); (231, [199]);
  (232, [200]); (233, [201]); (234, [202]); (235, [203]); (236, [204]);
  (237, [205]); (238, [206]); (239, [207]); (240, [208]); (241, [209]);
  (242, [210]); (243, [211]); (244, [212]); (245, [213]); (246, [214]);
  (248, [216]); (249, [217]); (250, [218]); (251, [219]); (252, [220]);
  (253, [221]); (254, [222]); (255, [376]); (257, [256]); (259, [258]);
  (261, [260]); (263, [262]); (265, [264]); (267, [266]); (269, [268]);
  (271, [270]); (273, [272]); (275, [274]); (277, [276]); (279, [278]);
  (281, [280]); (283, [282]); (285, [284]); (287, [286]); (289, [288]);
  (291, [290]); (293, [292]); (295, [294]); (297, [296]); (299, [298]);
  (301, [300]); (303, [302]); (305, [73]); (307, [306]); (309, [308]);
  (311, [310]); (314, [313]); (316, [315]); (318, [317]); (320, [319]);
  (322, [321]); (324, [323]); (326, [325]); (328, [327]); (329, [700; 78]);
  (331, [330]); (333, [332]); (335, [334]); (337, [336]); (339, [338]);
  (341, [340]); (343, [342]); (345, [344]); (347, [346]); (349, [348]);
  (351, [350]); (353, [352]); (355, [354]); (357, [356]); (359, [358]);
  (361, [360]); (363, [362]); (365, [364]); (367, [366]); (369, [368]);
  (371, [370]); (373, [372]); (375, [374]); (378, [377]); (380, [379]);
  (382, [381]); (383, [83]); (384, [579]); (387, [386]); (389, [388]);
  (392, [391]); (396, [395]); (402, [401]); (405, [502]); (409, [408]);
  (410, [573]); (414, [544]); (417, [416]); (419, [418]); (421, [420]);
  (424, [423]); (429, [428]); (432, [431]); (436, [435]); (438, [437]);
  (441, [440]); (445, [444]); (447, [503]); (453, [452]); (454, [452]);
  (456, [455]); (457, [455]); (459, [458]); (460, [458]); (462, [461]);
  (464, [463]); (466, [465]); (468, [467]); (470, [469]); (472, [471]);
  (474, [473]); (476, [475]); (477, [398]); (479, [478]); (481, [480]);
  (483, [482]); (485, [484]); (487, [486]); (489, [488]); (491, [490]);
  (493, [492]); (495, [494]); (496, [74; 780]); (498, [497]); (499, [497]);
  (501, [500]); (505, [504]); (507, [506]); (509, [508]); (511, [510]);
  (513, [512]); (515, [514]); (517, [516]); (519, [518]); (521, [520]);
  (523, [522]); (525, [524]); (527, [526]); (529, [528]); (531, [530]);
  (533, [532]); (535, [534]); (537, [536]); (539, [538]); (541, [540]);
  (543, [542]); (547, [546]); (549, [548]); (551, [550]); (553, [552]);
  (555, [554]); (557, [556]); (559, [558]); (561, [560]); (563, [562]);
  (572, [571]); (575, [11390]); (576, [11391]); (578, [577]); (583, [582]);
  (585, [584]); (587, [586]); (589, [588]); (591, [590]); (592, [11375]);
  (593, [11373]); (594, [11376]); (595, [385]); (596, [390]); (598, [393]);
  (599, [394]); (601, [399]); (603, [400]); (604, [42923]); (608, [403]);
  (609, [42924]); (611, [404]); (613, [42893]); (614, [42922]);
  (616, [407]); (617, [406]); (618, [42926]); (619, [11362]);
  (620, [42925]); (623, [412]); (625, [11374]); (626, [413]); (629, [415]);
  (637, [11364]); (640, [422]); (642, [42949]); (643, [425]);
  (647, [42929]); (648, [430]); (649, [580]); (650, [433]); (651, [434]);
  (652, [581]); (658, [439]); (669, [42930]); (670, [42928]); (837, [921]);
  (881, [880]); (883, [882]); (887, [886]); (891, [1021]); (892, [1022]);
  (893, [1023]); (912, [921; 776; 769]); (940, [902]); (941, [904]);
  (942, [905]); (943, [906]); (944, [933; 776; 769]); (945, [913]);
  (946, [914]); (947, [915]); (948, [916]); (949, [917]); (950, [918]);
  (951, [919]); (952, [920]); (953, [921]); (954, [922]); (955, [923]);
  (956, [924]); (957, [925]); (958, [926]); (959, [927]); (960, [928]);
  (961, [929]); (962, [931]); (963, [931]); (964, [932]); (965, [933]);
  (966, [934]); (967, [935]); (968, [936]); (969, [937]); (970, [938]);
  (971, [939]); (972, [908]); (973, [910]); (974, [911]); (976, [914]);
  (977, [920]); (981, [934]); (982, [928]); (983, [975]); (985, [984]);
  (987, [986]); (989, [988]); (991, [990]); (993, [992]); (995, [994]);
  (997, [996]); (999, [998]); (1001, [1000]); (1003, [1002]);
  (1005, [1004]); (1007, [1006]); (1008, [922]); (1009, [929]);
  (1010, [1017]); (1011, [895]); (1013, [917]); (1016, [1015]);
  (1019, [1018]); (1072, [1040]); (1073, [1041]); (1074, [1042]);
  (1075, [1043]); (1076, [1044]); (1077, [1045]); (1078, [1046]);
  (1079, [1047]); (1080, [1048]); (1081, [1049]); (1082, [1050]);
  (1083, [1051]); (1084, [1052]); (1085, [1053]); (1086, [1054]);
  (1087, [1055]); (1088, [1056]); (1089, [1057]); (1090, [1058]);
  (1091, [1059]); (1092, [1060]); (1093, [1061]); (1094, [1062]);
  (1095, [1063]); (1096, [1064]); (1097, [1065]); (1098, [1066]);
  (1099, [1067]); (1100, [1068]); (1101, [1069]); (1102, [1070]);
  (1103, [1071]); (1104, [1024]); (1105, [1025]); (1106, [1026]);
  (1107, [1027]); (1108, [1028]); (1109, [1029]); (1110, [1030]);
  (1111, [1031]); (1112, [1032]); (1113, [1033]); (1114, [1034]);
  (1115, [1035]); (1116, [1036]); (1117, [1037]); (1118, [1038]);
  (1119, [1039]); (1121, [1120]); (1123, [1122]); (1125, [1124]);
  (1127, [1126]); (1129, [1128]); (1131, [1130]); (1133, [1132]);
  (1135, [1134]); (1137, [1136]); (1139, [1138]); (1141, [1140]);
  (1143, [1142]); (1145, [1144]); (1147, [1146]); (1149, [1148]);
  (1151, [1150]); (1153, [1152]); (1163, [1162]); (1165, [1164]);
  (1167, [1166]); (1169, [1168]); (1171, [1170]); (1173, [1172]);
  (1175, [1174]); (1177, [1176]); (1179, [1178]); (1181, [1180]);
  (1183, [1182]); (1185, [1184]); (1187, [1186]); (1189, [1188]);
  (1191, [1190]); (1193, [1192]); (1195, [1194]); (1197, [1196]);
  (1199, [1198]); (1201, [1200]); (1203, [1202]); (1205, [1204]);
  (1207, [1206]); (1209, [1208]); (1211, [1210]); (1213, [1212]);
  (1215, [1214]); (1218, [1217]); (1220, [1219]); (1222, [1221]);
  (1224, [1223]); (1226, [1225]); (1228, [1227]); (1230, [1229]);
  (1231, [1216]); (1233, [1232]); (1235, [1234]); (1237, [1236]);
  (1239, [1238]); (1241, [1240]); (1243, [1242]); (1245, [1244]);
  (1247, [1246]); (1249, [1248]); (1251, [1250]); (1253, [1252]);
  (1255, [1254]); (1257, [1256]); (1259, [1258]); (1261, [1260]);
  (1263, [1262]); (1265, [1264]); (1267, [1266]); (1269, [1268]);
  (1271, [1270]); (1273, [1272]); (1275, [1274]); (1277, [1276]);
  (1279, [1278]); (1281, [1280]); (1283, [1282]); (1285, [1284]);
  (1287, [1286]); (1289, [1288]); (1291, [1290]); (1293, [1292]);
  (1295, [1294]); (1297, [1296]); (1299, [1298]); (1301, [1300]);
  (1303, [1302]); (1305, [1304]); (1307, [1306]); (1309, [1308]);
  (1311, [1310]); (1313, [1312]); (1315, [1314]); (1317, [1316]);
  (1319, [1318]); (1321, [1320]); (1323, [1322]); (1325, [1324]);
  (1327, [1326]); (1377, [1329]); (1378, [1330]); (1379, [1331]);
  (1380, [1332]); (1381, [1333]); (1382, [1334]); (1383, [1335]);
  (1384, [1336]); (1385, [1337]); (1386, [1338]); (1387, [1339]);
  (1388, [1340]); (1389, [1341]); (1390, [1342]); (1391, [1343]);
  (1392, [1344]); (1393, [1345]); (1394, [1346]); (1395, [1347]);
  (1396, [1348]); (1397, [1349]); (1398, [1350]); (1399, [1351]);
  (1400, [1352]); (1401, [1353]); (1402, [1354]); (1403, [1355]);
  (1404, [1356]); (1405, [1357]); (1406, [1358]); (1407, [1359]);
  (1408, [1360]); (1409, [1361]); (1410, [1362]); (1411, [1363]);
  (1412, [1364]); (1413, [1365]); (1414, [1366]); (1415, [1333; 1362]);
  (4304, [7312]); (4305, [7313]); (4306, [7314]); (4307, [7315]);
  (4308, [7316]); (4309, [7317]); (4310, [7318]); (4311, [7319]);
  (4312, [7320]); (4313, [7321]); (4314, [7322]); (4315, [7323]);
  (4316, [7324]); (4317, [7325]); (4318, [7326]); (4319, [7327]);
  (4320, [7328]); (4321, [7329]); (4322, [7330]); (4323, [7331]);
  (4324, [7332]); (4325, [7333]); (4326, [7334]); (4327, [7335]);
  (4328, [7336]); (4329, [7337]); (4330, [7338]); (4331, [7339]);
  (4332, [7340]); (4333, [7341]); (4334, [7342]); (4335, [7343]);
  (4336, [7344]); (4337, [7345]); (4338, [7346]); (4339, [7347]);
  (4340, [7348]); (4341, [7349]); (4342, [7350]); (4343, [7351]);
  (4344, [7352]); (4345, [7353]); (4346, [7354]); (4349, [7357]);
  (4350, [7358]); (4351, [7359]); (5112, [5104]); (5113, [5105]);
  (5114, [5106]); (5115, [5107]); (5116, [5108]); (5117, [5109]);
  (7296, [1042]); (7297, [1044]); (7298, [1054]); (7299, [1057]);
  (7300, [1058]); (7301, [1058]); (7302, [1066]); (7303, [1122]);
  (7304, [42570]); (7545, [42877]); (7549, [11363]); (7566, [42950]);
  (7681, [7680]); (7683, [7682]); (7685, [7684]); (7687, [7686]);
  (7689, [7688]); (7691, [7690]); (7693, [7692]); (7695, [7694]);
  (7697, [7696]); (7699, [7698]); (7701, [7700]); (7703, [7702]);
  (7705, [7704]); (7707, [7706]); (7709, [7708]); (7711, [7710]);
  (7713, [7712]); (7715, [7714]); (7717, [7716]); (7719, [7718]);
  (7721, [7720]); (7723, [7722]); (7725, [7724]); (7727, [7726]);
  (7729, [7728]); (7731, [7730]); (7733, [7732]); (7735, [7734]);
  (7737, [7736]); (7739, [7738]); (7741, [7740]); (7743, [7742]);
  (7745, [7744]); (7747, [7746]); (7749, [7748]); (7751, [7750]);
  (7753, [7752]); (7755, [7754]); (7757, [7756]); (7759, [7758]);
  (7761, [7760]); (7763, [7762]); (7765, [7764]); (7767, [7766]);
  (7769, [7768]); (7771, [7770]); (7773, [7772]); (7775, [7774]);
  (7777, [7776]); (7779, [7778]); (7781, [7780]); (7783, [7782]);
  (7785, [7784]); (7787, [7786]); (7789, [7788]); (7791, [7790]);
  (7793, [7792]); (7795, [7794]); (7797, [7796]); (7799, [7798]);
  (7801, [7800]); (7803, [7802]); (7805, [7804]); (7807, [7806]);
  (7809, [7808]); (7811, [7810]); (7813, [7812]); (7815, [7814]);
  (7817, [7816]); (7819, [7818]); (7821, [7820]); (7823, [7822]);
  (7825, [7824]); (7827, [7826]); (7829, [7828]); (7830, [72; 817]);
  (7831, [84; 776]); (7832, [87; 778]); (7833, [89; 778]);
  (7834, [65; 702]); (7835, [7776]); (7841, [7840]); (7843, [7842]);
  (7845, [7844]); (7847, [7846]); (7849, [7848]); (7851, [7850]);
  (7853, [7852]); (7855, [7854]); (7857, [7856]); (7859, [7858]);
  (7861, [7860]); (7863, [7862]); (7865, [7864]); (7867, [7866]);
  (7869, [7868]); (7871, [7870]); (7873, [7872]); (7875, [7874]);
  (7877, [7876]); (7879, [7878]); (7881, [7880]); (7883, [7882]);
  (7885, [7884]); (7887, [7886]); (7889, [7888]); (7891, [7890]);
  (7893, [7892]); (7895, [7894]); (7897, [7896]); (7899, [7898]);
  (7901, [7900]); (7903, [7902]); (7905, [7904]); (7907, [7906]);
  (7909, [7908]); (7911, [7910]); (7913, [7912]); (7915, [7914]);
  (7917, [7916]); (7919, [7918]); (7921, [7920]); (7923, [7922]);
  (7925, [7924]); (7927, [7926]); (7929, [7928]); (7931, [7930]);
  (7933, [7932]); (7935, [7934]); (7936, [7944]); (7937, [7945]);
  (7938, [7946]); (7939, [7947]); (7940, [7948]); (7941, [7949]);
  (7942, [7950]); (7943, [7951]); (7952, [7960]); (7953, [7961]);
  (7954, [7962]); (7955, [7963]); (7956, [7964]); (7957, [7965]);
  (7968, [7976]); (7969, [7977]); (7970, [7978]); (7971, [7979]);
  (7972, [7980]); (7973, [7981]); (7974, [7982]); (7975, [7983]);
  (7984, [7992]); (7985, [7993]); (7986, [7994]); (7987, [7995]);
  (7988, [7996]); (7989, [7997]); (7990, [7998]); (7991, [7999]);
  (8000, [8008]); (8001, [8009]); (8002, [8010]); (8003, [8011]);
  (8004, [8012]); (8005, [8013]); (8016, [933; 787]); (8017, [8025]);
  (8018, [933; 787; 768]); (8019, [8027]); (8020, [933; 787; 769]);
  (8021, [8029]); (8022, [933; 787; 834]); (8023, [8031]); (8032, [8040]);
  (8033, [8041]); (8034, [8042]); (8035, [8043]); (8036, [8044]);
  (8037, [8045]); (8038, [8046]); (8039, [8047]); (8048, [8122]);
  (8049, [8123]); (8050, [8136]); (8051, [8137]); (8052, [8138]);
  (8053, [8139]); (8054, [8154]); (8055, [8155]); (8056, [8184]);
  (8057, [8185]); (8058, [8170]); (8059, [8171]); (8060, [8186]);
  (8061, [8187]); (8064, [7944; 921]); (8065, [7945; 921]);
  (8066, [7946; 921]); (8067, [7947; 921]); (8068, [7948; 921]);
  (8069, [7949; 921]); (8070, [7950; 921]); (8071, [7951; 921]);
  (8072, [7944; 921]); (8073, [7945; 921]); (8074, [7946; 921]);
  (8075, [7947; 921]); (8076, [7948; 921]); (8077, [7949; 921]);
  (8078, [7950; 921]); (8079, [7951; 921]); (8080, [7976; 921]);
  (8081, [7977; 921]); (8082, [7978; 921]); (8083, [7979; 921]);
  (8084, [7980; 921]); (8085, [7981; 921]); (8086, [7982; 921]);
  (8087, [7983; 921]); (8088, [7976; 921]); (8089, [7977; 921]);
  (8090, [7978; 921]); (8091, [7979; 921]); (8092, [7980; 921]);
  (8093, [7981; 921]); (8094, [7982; 921]); (8095, [7983; 921]);
  (8096, [8040; 921]); (8097, [8041; 921]); (8098, [8042; 921]);
  (8099, [8043; 921]); (8100, [8044; 921]); (8101, [8045; 921]);
  (8102, [8046; 921]); (8103, [8047; 921]); (8104, [8040; 921]);
  (8105, [8041; 921]); (8106, [8042; 921]); (8107, [8043; 921]);
  (8108, [8044; 921]); (8109, [8045; 921]); (8110, [8046; 921]);
  (8111, [8047; 921]); (8112, [8120]); (8113, [8121]); (8114, [8122; 921]);
  (8115, [913; 921]); (8116, [902; 921]); (8118, [913; 834]);
  (8119, [913; 834; 921]); (8124, [913; 921]); (8126, [921]);
  (8130, [8138; 921]); (8131, [919; 921]); (8132, [905; 921]);
  (8134, [919; 834]); (8135, [919; 834; 921]); (8140, [919; 921]);
  (8144, [8152]); (8145, [8153]); (8146, [921; 776; 768]);
  (8147, [921; 776; 769]); (8150, [921; 834]); (8151, [921; 776; 834]);
  (8160, [8168]); (8161, [8169]); (8162, [933; 776; 768]);
  (8163, [933; 776; 769]); (8164, [929; 787]); (8165, [8172]);
  (8166, [933; 834]); (8167, [933; 776; 834]); (8178, [8186; 921]);
  (8179, [937; 921]); (8180, [911; 921]); (8182, [937; 834]);
  (8183, [937; 834; 921]); (8188, [937; 921]); (8526, [8498]);
  (8560, [8544]); (8561, [8545]); (8562, [8546]); (8563, [8547]);
  (8564, [8548]); (8565, [8549]); (8566, [8550]); (8567, [8551]);
  (8568, [8552]); (8569, [8553]); (8570, [8554]); (8571, [8555]);
  (8572, [8556]); (8573, [8557]); (8574, [8558]); (8575, [8559]);
  (8580, [8579]); (9424, [9398]); (9425, [9399]); (9426, [9400]);
  (9427, [9401]); (9428, [9402]); (9429, [9403]); (9430, [9404]);
  (9431, [9405]); (9432, [9406]); (9433, [9407]); (9434, [9408]);
  (9435, [9409]); (9436, [9410]); (9437, [9411]); (9438, [9412]);
  (9439, [9413]); (9440, [9414]); (9441, [9415]); (9442, [9416]);
  (9443, [9417]); (9444, [9418]); (9445, [9419]); (9446, [9420]);
  (9447, [9421]); (9448, [9422]); (9449, [9423]); (11312, [11264]);
  (11313, [11265]); (11314, [11266]); (11315, [11267]); (11316, [11268]);
  (11317, [11269]); (11318, [11270]); (11319, [11271]); (11320, [11272]);
  (11321, [11273]); (11322, [11274]); (11323, [11275]); (11324, [11276]);
  (11325, [11277]); (11326, [11278]); (11327, [11279]); (11328, [11280]);
  (11329, [11281]); (11330, [11282]); (11331, [11283]); (11332, [11284]);
  (11333, [11285]); (11334, [11286]); (11335, [11287]); (11336, [11288]);
  (11337, [11289]); (11338, [11290]); (11339, [11291]); (11340, [11292]);
  (11341, [11293]); (11342, [11294]); (11343, [11295]); (11344, [11296]);
  (11345, [11297]); (11346, [11298]); (11347, [11299]); (11348, [11300]);
  (11349, [11301]); (11350, [11302]); (11351, [11303]); (11352, [11304]);
  (11353, [11305]); (11354, [11306]); (11355, [11307]); (11356, [11308]);
  (11357, [11309]); (11358, [11310]); (11359, [11311]); (11361, [11360]);
  (11365, [570]); (11366, [574]); (11368, [11367]); (11370, [11369]);
  (11372, [11371]); (11379, [11378]); (11382, [11381]); (11393, [11392]);
  (11395, [11394]); (11397, [11396]); (11399, [11398]); (11401, [11400]);
  (11403, [11402]); (11405, [11404]); (11407, [11406]); (11409, [11408]);
  (11411, [11410]); (11413, [11412]); (11415, [11414]); (11417, [11416]);
  (11419, [11418]); (11421, [11420]); (11423, [11422]); (11425, [11424]);
  (11427, [11426]); (11429, [11428]); (11431, [11430]); (11433, [11432]);
  (11435, [11434]); (11437, [11436]); (11439, [11438]); (11441, [11440]);
  (11443, [11442]); (11445, [11444]); (11447, [11446]); (11449, [11448]);
  (11451, [11450]); (11453, [11452]); (11455, [11454]); (11457, [11456]);
  (11459, [11458]); (11461, [11460]); (11463, [11462]); (11465, [11464]);
  (11467, [11466]); (11469, [11468]); (11471, [11470]); (11473, [11472]);
  (11475, [11474]); (11477, [11476]); (11479, [11478]); (11481, [11480]);
  (11483, [11482]); (11485, [11484]); (11487, [11486]); (11489, [11488]);
  (11491, [11490]); (11500, [11499]); (11502, [11501]); (11507, [11506]);
  (11520, [4256]); (11521, [4257]); (11522, [4258]); (11523, [4259]);
  (11524, [4260]); (11525, [4261]); (11526, [4262]); (11527, [4263]);
  (11528, [4264]); (11529, [4265]); (11530, [4266]); (11531, [4267]);
  (11532, [4268]); (11533, [4269]); (11534, [4270]); (11535, [4271]);
  (11536, [4272]); (11537, [4273]); (11538, [4274]); (11539, [4275]);
  (11540, [4276]); (11541, [4277]); (11542, [4278]); (11543, [4279]);
  (11544, [4280]); (11545, [4281]); (11546, [4282]); (11547, [4283]);
  (11548, [4284]); (11549, [4285]); (11550, [4286]); (11551, [4287]);
  (11552, [4288]); (11553, [4289]); (11554, [4290]); (11555, [4291]);
  (11556, [4292]); (11557, [4293]); (11559, [4295]); (11565, [4301]);
  (42561, [42560]); (42563, [42562]); (42565, [42564]); (42567, [42566]);
  (42569, [42568]); (42571, [42570]); (42573, [42572]); (42575, [42574]);
  (42577, [42576]); (42579, [42578]); (42581, [42580]); (42583, [42582]);
  (42585, [42584]); (42587, [42586]); (42589, [42588]); (42591, [42590]);
  (42593, [42592]); (42595, [42594]); (42597, [42596]); (42599, [42598]);
  (42601, [42600]); (42603, [42602]); (42605, [42604]); (42625, [42624]);
  (42627, [42626]); (42629, [42628]); (42631, [42630]); (42633, [42632]);
  (42635, [42634]); (42637, [42636]); (42639, [42638]); (42641, [42640]);
  (42643, [42642]); (42645, [42644]); (42647, [42646]); (42649, [42648]);
  (42651, [42650]); (42787, [42786]); (42789, [42788]); (42791, [42790]);
  (42793, [42792]); (42795, [42794]); (42797, [42796]); (42799, [42798]);
  (42803, [42802]); (42805, [42804]); (42807, [42806]); (42809, [42808]);
  (42811, [42810]); (42813, [42812]); (42815, [42814]); (42817, [42816]);
  (42819, [42818]); (42821, [42820]); (42823, [42822]); (42825, [42824]);
  (42827, [42826]); (42829, [42828]); (42831, [42830]); (42833, [42832]);
  (42835, [42834]); (42837, [42836]); (42839, [42838]); (42841, [42840]);
  (42843, [42842]); (42845, [42844]); (42847, [42846]); (42849, [42848]);
  (42851, [42850]); (42853, [42852]); (42855, [42854]); (42857, [42856]);
  (42859, [42858]); (42861, [42860]); (42863, [42862]); (42874, [42873]);
  (42876, [42875]); (42879, [42878]); (42881, [42880]); (42883, [42882]);
  (42885, [42884]); (42887, [42886]); (42892, [42891]); (42897, [42896]);
  (42899, [42898]); (42900, [42948]); (42903, [42902]); (42905, [42904]);
  (42907, [42906]); (42909, [42908]); (42911, [42910]); (42913, [42912]);
  (42915, [42914]); (42917, [42916]); (42919, [42918]); (42921, [42920]);
  (42933, [42932]); (42935, [42934]); (42937, [42936]); (42939, [42938]);
  (42941, [42940]); (42943, [42942]); (42945, [42944]); (42947, [42946]);
  (42952, [42951]); (42954, [42953]); (42961, [42960]); (42967, [42966]);
  (42969, [42968]); (42998, [42997]); (43859, [42931]); (43888, [5024]);
  (43889, [5025]); (43890, [5026]); (43891, [5027]); (43892, [5028]);
  (43893, [5029]); (43894, [5030]); (43895, [5031]); (43896, [5032]);
  (43897, [5033]); (43898, [5034]); (43899, [5035]); (43900, [5036]);
  (43901, [5037]); (43902, [5038]); (43903, [5039]); (43904, [5040]);
  (43905, [5041]); (43906, [5042]); (43907, [5043]); (43908, [5044]);
  (43909, [5045]); (43910, [5046]); (43911, [5047]); (43912, [5048]);
  (43913, [5049]); (43914, [5050]); (43915, [5051]); (43916, [5052]);
  (43917, [5053]); (43918, [5054]); (43919, [5055]); (43920, [5056]);
  (43921, [5057]); (43922, [5058]); (43923, [5059]); (43924, [5060]);
  (43925, [5061]); (43926, [5062]); (43927, [5063]); (43928, [5064]);
  (43929, [5065]); (43930, [5066]); (43931, [5067]); (43932, [5068]);
  (43933, [5069]); (43934, [5070]); (43935, [5071]); (43936, [5072]);
  (43937, [5073]); (43938, [5074]); (43939, [5075]); (43940, [5076]);
  (43941, [5077]); (43942, [5078]); (43943, [5079]); (43944, [5080]);
  (43945, [5081]); (43946, [5082]); (43947, [5083]); (43948, [5084]);
  (43949, [5085]); (43950, [5086]); (43951, [5087]); (43952, [5088]);
  (43953, [5089]); (43954, [5090]); (43955, [5091]); (43956, [5092]);
  (43957, [5093]); (43958, [5094]); (43959, [5095]); (43960, [5096]);
  (43961, [5097]); (43962, [5098]); (43963, [5099]); (43964, [5100]);
  (43965, [5101]); (43966, [5102]); (43967, [5103]); (64256, [70; 70]);
  (64257, [70; 73]); (64258, [70; 76]); (64259, [70; 70; 73]);
  (64260, [70; 70; 76]); (64261, [83; 84]); (64262, [83; 84]);
  (64275, [1348; 1350]); (64276, [1348; 1333]); (64277, [1348; 1339]);
  (64278, [1358; 1350]); (64279, [1348; 1341]); (65345, [65313]);
  (65346, [65314]); (65347, [65315]); (65348, [65316]); (65349, [65317]);
  (65350, [65318]); (65351, [65319]); (65352, [65320]); (65353, [65321]);
  (65354, [65322]); (65355, [65323]); (65356, [65324]); (65357, [65325]);
  (65358, [65326]); (65359, [65327]); (65360, [65328]); (65361, [65329]);
  (65362, [65330]); (65363, [65331]); (65364, [65332]); (65365, [65333]);
  (65366, [65334]); (65367, [65335]); (65368, [65336]); (65369, [65337]);
  (65370, [65338]); (66600, [66560]); (66601, [66561]); (66602, [66562]);
  (66603, [66563]); (66604, [66564]); (66605, [66565]); (66606, [66566]);
  (66607, [66567]); (66608, [66568]); (66609, [66569]); (66610, [66570]);
  (66611, [66571]); (66612, [66572]); (66613, [66573]); (66614, [66574]);
  (66615, [66575]); (66616, [66576]); (66617, [66577]); (66618, [66578]);
  (66619, [66579]); (66620, [66580]); (66621, [66581]); (66622, [66582]);
  (66623, [66583]); (66624, [66584]); (66625, [66585]); (66626, [66586]);
  (66627, [66587]); (66628, [66588]); (66629, [66589]); (66630, [66590]);
  (66631, [66591]); (66632, [66592]); (66633, [66593]); (66634, [66594]);
  (66635, [66595]); (66636, [66596]); (66637, [66597]); (66638, [66598]);
  (66639, [66599]); (66776, [66736]); (66777, [66737]); (66778, [66738]);
  (66779, [66739]); (66780, [66740]); (66781, [66741]); (66782, [66742]);
  (66783, [66743]); (66784, [66744]); (66785, [66745]); (66786, [66746]);
  (66787, [66747]); (66788, [66748]); (66789, [66749]); (66790, [66750]);
  (66791, [66751]); (66792, [66752]); (66793, [66753]); (66794, [66754]);
  (66795, [66755]); (66796, [66756]); (66797, [66757]); (66798, [66758]);
  (66799, [66759]); (66800, [66760]); (66801, [66761]); (66802, [66762]);
  (66803, [66763]); (66804, [66764]); (66805, [66765]); (66806, [66766]);
  (66807, [66767]); (66808, [66768]); (66809, [66769]); (66810, [66770]);
  (66811, [66771]); (66967, [66928]); (66968, [66929]); (66969, [66930]);
  (66970, [66931]); (66971, [66932]); (66972, [66933]); (66973, [66934]);
  (66974, [66935]); (66975, [66936]); (66976, [66937]); (66977, [66938]);
  (66979, [66940]); (66980, [66941]); (66981, [66942]); (66982, [66943]);
  (66983, [66944]); (66984, [66945]); (66985, [66946]); (66986, [66947]);
  (66987, [66948]); (66988, [66949]); (66989, [66950]); (66990, [66951]);
  (66991, [66952]); (66992, [66953]); (66993, [66954]); (66995, [66956]);
  (66996, [66957]); (66997, [66958]); (66998, [66959]); (66999, [66960]);
  (67000, [66961]); (67001, [66962]); (67003, [66964]); (67004, [66965]);
  (68800, [68736]); (68801, [68737]); (68802, [68738]); (68803, [68739]);
  (68804, [68740]); (68805, [68741]); (68806, [68742]); (68807, [68743]);
  (68808, [68744]); (68809, [68745]); (68810, [68746]); (68811, [68747]);
  (68812, [68748]); (68813, [68749]); (68814, [68750]); (68815, [68751]);
  (68816, [68752]); (68817, [68753]); (68818, [68754]); (68819, [68755]);
  (68820, [68756]); (68821, [68757]); (68822, [68758]); (68823, [68759]);
  (68824, [68760]); (68825, [68761]); (68826, [68762]); (68827, [68763]);
  (68828, [68764]); (68829, [68765]); (68830, [68766]); (68831, [68767]);
  (68832, [68768]); (68833, [68769]); (68834, [68770]); (68835, [68771]);
  (68836, [68772]); (68837, [68773]); (68838, [68774]); (68839, [68775]);
  (68840, [68776]); (68841, [68777]); (68842, [68778]); (68843, [68779]);
  (68844, [68780]); (68845, [68781]); (68846, [68782]); (68847, [68783]);
  (68848, [68784]); (68849, [68785]); (68850, [68786]); (71872, [71840]);
  (71873, [71841]); (71874, [71842]); (71875, [71843]); (71876, [71844]);
  (71877, [71845]); (71878, [71846]); (71879, [71847]); (71880, [71848]);
  (71881, [71849]); (71882, [71850]); (71883, [71851]); (71884, [71852]);
  (71885, [71853]); (71886, [71854]); (71887, [71855]); (71888, [71856]);
  (71889, [71857]); (71890, [71858]); (71891, [71859]); (71892, [71860]);
  (71893, [71861]); (71894, [71862]); (71895, [71863]); (71896, [71864]);
  (71897, [71865]); (71898, [71866]); (71899, [71867]); (71900, [71868]);
  (71901, [71869]); (71902, [71870]); (71903, [71871]); (93792, [93760]);
  (93793, [93761]); (93794, [93762]); (93795, [93763]); (93796, [93764]);
  (93797, [93765]); (93798, [93766]); (93799, [93767]); (93800, [93768]);
  (93801, [93769]); (93802, [93770]); (93803, [93771]); (93804, [93772]);
  (93805, [93773]); (93806, [93774]); (93807, [93775]); (93808, [93776]);
  (93809, [93777]); (93810, [93778]); (93811, [93779]); (93812, [93780]);
  (93813, [93781]); (93814, [93782]); (93815, [93783]); (93816, [93784]);
  (93817, [93785]); (93818, [93786]); (93819, [93787]); (93820, [93788]);
  (93821, [93789]); (93822, [93790]); (93823, [93791]); (125218, [125184]);
  (125219, [125185]); (125220, [125186]); (125221, [125187]);
  (125222, [125188]); (125223, [125189]); (125224, [125190]);
  (125225, [125191]); (125226, [125192]); (125227, [125193]);
  (125228, [125194]); (125229, [125195]); (125230, [125196]);
  (125231, [125197]); (125232, [125198]); (125233, [125199]);
  (125234, [125200]); (125235, [125201]); (125236, [125202]);
  (125237, [125203]); (125238, [125204]); (125239, [125205]);
  (125240, [125206]); (125241, [125207]); (125242, [125208]);
  (125243, [125209]); (125244, [125210]); (125245, [125211]);
  (125246, [125212]); (125247, [125213]); (125248, [125214]);
  (125249, [125215]); (125250, [125216]); (125251, [125217])

]%N.

Fixpoint lookup (c : N) (t : list (N * list N)) : option (list N) :=
  match t with
  | [] => None
  | (k, v) :: t' => if (k =? c)%N then Some v else lookup c t'
  end.

End UnicodeData.

Definition is_ascii_lower (c : N) : bool := ((97 <=? c) && (c <=? 122))%N.

Definition to_upper_full (c : N) : list N :=
  if is_ascii_lower c then [(c - 32)%N]
  else if (c <? 128)%N then [c]
  else match UnicodeData.lookup c UnicodeData.uppercase with
       | Some l => l
       | None => [c]
       end.

(** [s.upper()] *)
Definition upper (s : str) : str := flat_map to_upper_full s.

(** [s.split(sep)] for a separator of one code point: the pieces between
    the occurrences of [sep], always at least one piece. *)
Fixpoint split (sep : N) (s : str) : list str :=
  match s with
  | [] => [[]]
  | c :: s' =>
      if (c =? sep)%N then [] :: split sep s'
      else match split sep s' with
           | piece :: pieces => (c :: piece) :: pieces
           | [] => [[c]]
           end
  end.

(** [s.rstrip(chars)] for a set of one code point. *)
Fixpoint rstrip (ch : N) (s : str) : str :=
  match s with
  | [] => []
  | c :: s' =>
      match rstrip ch s' with
      | [] => if (c =? ch)%N then [] else [c]
      | r => c :: r
      end
  end.

(** Decimal digits of a natural number, as [str(n)] writes them. *)
Fixpoint digits_fuel (fuel : nat) (n : N) (acc : str) : str :=
  match fuel with
  | O => acc
  | S f =>
      let acc' := (48 + n mod 10)%N :: acc in
      if (n <? 10)%N then acc' else digits_fuel f (n / 10)%N acc'
  end.

Definition str_of_N (n : N) : str := digits_fuel (S (N.to_nat (N.log2 n))) n [].

(** [str(n)] for an [int]. *)
Definition str_of_int (n : Z) : str :=
  if (n <? 0)%Z then 45%N :: str_of_N (Z.to_N (- n)) else str_of_N (Z.to_N n).

(** ** Values

    One universe for everything the client handles at run time: what the
    JSON decoder produces, the payloads it sends, and dataclass instances
    ([PObj], a class name with its attributes in declaration order).  A
    [dict] keeps its keys unique and in insertion order. *)

Inductive pyfloat :=
| FDec (m e : Z)   (* the decimal m * 10^e written in the document *)
| FInf (negative : bool)
| FNaN.

#[warnings="-register-all"]
Inductive pyval :=
| PNone
| PBool (b : bool)
| PInt (n : Z)
| PFloat (f : pyfloat)
| PStr (s : str)
| PList (items : list pyval)
| PDict (entries : list (str * pyval))
| PObj (cls : str) (attrs : list (str * pyval)).

Definition dict := list (str * pyval).

Fixpoint dict_get (A : Type) (d : list (str * A)) (k : str) : option A :=
  match d with
  | [] => None
  | (k', v) :: d' => if str_eqb k' k then Some v else dict_get d' k
  end.

(** [d[k] = v]: rebinds an existing key in place, appends a new one. *)
Fixpoint dict_set (A : Type) (d : list (str * A)) (k : str) (v : A)
  : list (str * A) :=
  match d with
  | [] => [(k, v)]
  | (k', v') :: d' =>
      if str_eqb k' k then (k', v) :: d' else (k', v') :: dict_set d' k v
  end.

Definition dict_keys (A : Type) (d : list (str * A)) : list str := map fst d.

Definition dict_has (A : Type) (d : list (str * A)) (k : str) : bool :=
  match dict_get d k with Some _ => true | None => false end.

(** A float is zero when its decimal is, or when it rounds to zero: at most
    half the smallest subnormal, 2^-1075. *)
Definition float_is_zero (f : pyfloat) : bool :=
  match f with
  | FDec m e =>
      ((m =? 0) || ((e <? 0) && (Z.abs m * 2 ^ 1075 <=? 10 ^ (- e))))%Z
  | FInf _ | FNaN => false
  end.

(** Truth value of an object, as [if not x] tests it. *)
Definition truthy (v : pyval) : bool :=
  match v with
  | PNone => false
  | PBool b => b
  | PInt n => negb (n =? 0)%Z
  | PFloat f => negb (float_is_zero f)
  | PStr [] | PList [] | PDict [] => false
  | PStr _ | PList _ | PDict _ => true
  | PObj _ _ => true
  end.

(** ** Exceptions and results *)

Inductive exn :=
| RapidWireAPIError (status_code : Z) (detail : pyval)
| RequestException (description : str)
    (* raised by the session: ConnectionError, Timeout, SSLError, ... *)
| JSONDecodeError (description : str)
    (* requests.exceptions.JSONDecodeError, a RequestException *)
| ValueError (message : str)
| TypeError
| AttributeError
| KeyError (key : str)
| IndexError
| UnicodeEncodeError.

(** [isinstance(e, requests.exceptions.RequestException)] *)
Definition is_RequestException (e : exn) : bool :=
  match e with
  | RequestException _ | JSONDecodeError _ => true
  | _ => false
  end.

(** [isinstance(e, requests.exceptions.JSONDecodeError)] *)
Definition is_JSONDecodeError (e : exn) : bool :=
  match e with
  | JSONDecodeError _ => true
  | _ => false
  end.

Definition is_RapidWireAPIError (e : exn) : bool :=
  match e with
  | RapidWireAPIError _ _ => true
  | _ => false
  end.

Inductive result (A : Type) :=
| Ok (a : A)
| Raise (e : exn).

Arguments Raise {A} e.

Definition rbind (A B : Type) (m : result A) (k : A -> result B) : result B :=
  match m with
  | Ok a => k a
  | Raise e => Raise e
  end.

Declare Scope result_scope.
Delimit Scope result_scope with result.
Notation "x <- m ;; k" := (rbind m (fun x => k))
  (at level 61, m at next level, right associativity) : result_scope.

Fixpoint mapM (A B : Type) (f : A -> result B) (l : list A) : result (list B) :=
  match l with
  | [] => Ok []
  | a :: l' =>
      match f a with
      | Ok b =>
          match mapM f l' with
          | Ok bs => Ok (b :: bs)
          | Raise e => Raise e
          end
      | Raise e => Raise e
      end
  end.

(** The digits CPython allows an [int] to have when it is turned into a
    [str]: [sys.get_int_max_str_digits()], 4300 unless set otherwise. *)
Definition int_max_str_digits : Z := 4300.

Definition int_str_limit_message : str :=
  lit "Exceeds the limit (4300 digits) for integer string conversion; use sys.set_int_max_str_digits() to increase the limit".

(** An [int] in an f-string: its decimal digits, or a [ValueError] when it
    has more digits than the limit, that is, from 10^4300 on in absolute
    value. *)
Definition format_int (n : Z) : result str :=
  if (10 ^ int_max_str_digits <=? Z.abs n)%Z
  then Raise (ValueError int_str_limit_message)
  else Ok (str_of_int n).

(** ** Operations of the object model *)

(** [o.name] *)
Definition getattr (o : pyval) (name : str) : result pyval :=
  match o with
  | PObj _ attrs =>
      match dict_get attrs name with
      | Some v => Ok v
      | None => Raise AttributeError
      end
  | _ => Raise AttributeError
  end.

(** [o.get(key, default)]: only a dict has the method. *)
Definition call_get (o : pyval) (key : str) (default : pyval) : result pyval :=
  match o with
  | PDict d =>
      match dict_get d key with
      | Some v => Ok v
      | None => Ok default
      end
  | _ => Raise AttributeError
  end.

(** [o.split(sep)]: only a str has the method. *)
Definition call_split (o : pyval) (sep : N) : result (list str) :=
  match o with
  | PStr s => Ok (split sep s)
  | _ => Raise AttributeError
  end.

(** [l[i]] on a list. *)
Definition list_getitem (A : Type) (l : list A) (i : nat) : result A :=
  match nth_error l i with
  | Some a => Ok a
  | None => Raise IndexError
  end.

(** [o[key]] with a str key. *)
Definition getitem (o : pyval) (key : str) : result pyval :=
  match o with
  | PDict d =>
      match dict_get d key with
      | Some v => Ok v
      | None => Raise (KeyError key)
      end
  | _ => Raise TypeError
  end.

(** [o[key] = v] with a str key. *)
Definition setitem (o : pyval) (key : str) (v : pyval) : result pyval :=
  match o with
  | PDict d => Ok (PDict (dict_set d key v))
  | _ => Raise TypeError
  end.

(** The items [for x in o] runs over. *)
Definition py_iter (o : pyval) : result (list pyval) :=
  match o with
  | PList l => Ok l
  | PDict d => Ok (map PStr (dict_keys d))
  | PStr s => Ok (map (fun c => PStr [c]) s)
  | _ => Raise TypeError
  end.

(** ** Dataclasses

    [@dataclass] generates an [__init__] that takes the fields as keyword
    arguments.  The annotations are recorded in the class and looked at by
    nothing at run time. *)

Inductive annotation :=
| TInt
| TStr
| TOptional (t : annotation)
| TDict
| TDictOf (k v : annotation)
| TListOf (t : annotation)
| TClass (name : str).

Record field := Field {
  f_name : str;
  f_type : annotation;
  f_default : option pyval
}.

Record dataclass := Dataclass {
  cls_name : str;
  cls_fields : list field
}.

Definition is_field (c : dataclass) (k : str) : bool :=
  existsb (fun f => str_eqb (f_name f) k) (cls_fields c).

(** The value a field is initialised with: the keyword argument, else the
    default, else the call fails for a missing argument. *)
Definition field_value (kw : dict) (f : field) : result (str * pyval) :=
  match dict_get kw (f_name f) with
  | Some v => Ok (f_name f, v)
  | None =>
      match f_default f with
      | Some v => Ok (f_name f, v)
      | None => Raise TypeError
      end
  end.

(** The generated [__init__]: an unexpected keyword argument is a
    [TypeError], and so is a missing one. *)
Definition dataclass_init (c : dataclass) (kw : dict) : result pyval :=
  if forallb (is_field c) (dict_keys kw)
  then match mapM (field_value kw) (cls_fields c) with
       | Ok attrs => Ok (PObj (cls_name c) attrs)
       | Raise e => Raise e
       end
  else Raise TypeError.

(** The call of class [C] on [**data]: the argument after [**] must be a
    mapping. *)
Definition construct (c : dataclass) (data : pyval) : result pyval :=
  match data with
  | PDict kw => dataclass_init c kw
  | _ => Raise TypeError
  end.

Definition required (name : string) (t : annotation) : field :=
  Field (lit name) t None.

Definition CurrencyInfo : dataclass :=
  Dataclass (lit "CurrencyInfo")
    [ required "id" TInt;
      required "symbol" TStr;
      required "name" TStr;
      required "supply" TInt;
      required "issuer_id" (TOptional TInt);
      required "description" (TOptional TStr) ].

Definition StockInfo : dataclass :=
  Dataclass (lit "StockInfo")
    [ required "id" TInt;
      required "symbol" TStr;
      required "name" TStr;
      required "supply" TInt;
      required "issuer_id" (TOptional TInt);
      required "industry" (TOptional TStr);
      required "overview" (TOptional TStr) ].

Definition Balance : dataclass :=
  Dataclass (lit "Balance")
    [ required "currencies" (TDictOf TStr TInt);
      required "stocks" (TDictOf TStr TInt) ].

Definition HistoryEntry : dataclass :=
  Dataclass (lit "HistoryEntry")
    [ required "type" TStr;
      required "operation_type" TStr;
      required "timestamp" TInt;
      required "source" TInt;
      required "dest" TInt;
      required "symbol" TStr;
      required "amount" TInt ].

Definition UserOrder : dataclass :=
  Dataclass (lit "UserOrder")
    [ required "order_id" TInt;
      required "stock_symbol" TStr;
      required "price" TInt;
      required "amount" TInt;
      required "timestamp" TInt ].

Definition OrderbookEntry : dataclass :=
  Dataclass (lit "OrderbookEntry")
    [ required "price" TInt;
      required "amount" TInt ].

Definition Orderbook : dataclass :=
  Dataclass (lit "Orderbook")
    [ required "stock_symbol" TStr;
      required "orders" (TListOf (TClass (lit "OrderbookEntry"))) ].

Definition LiquidityInfo : dataclass :=
  Dataclass (lit "LiquidityInfo")
    [ required "currency_symbol" TStr;
      required "base_liquidity" TInt;
      required "pair_liquidity" TInt;
      required "total_lp_points" TInt ].

Definition Config : dataclass :=
  Dataclass (lit "Config")
    [ required "decimal_places" TInt;
      required "base_currency" (TClass (lit "CurrencyInfo")) ].

Definition SuccessResponse : dataclass :=
  Dataclass (lit "SuccessResponse")
    [ required "message" TStr;
      Field (lit "details") (TOptional TDict) (Some PNone) ].

(** ** The JSON decoder

    [response.json()] of [requests] decodes the body with [json.loads].
    [Json.loads] follows the grammar that decoder accepts: the JSON grammar,
    the constants [NaN], [Infinity] and [-Infinity], no control characters
    inside strings, a later duplicate key rebinding the earlier one.  [None]
    stands for a [JSONDecodeError].  Limits of the interpreter (recursion
    depth, length of an integer literal) are not part of it. *)

Module Json.

Local Open Scope N_scope.

Definition is_ws (c : N) : bool :=
  (c =? 32) || (c =? 9) || (c =? 10) || (c =? 13).

Fixpoint skip_ws (s : str) : str :=
  match s with
  | c :: s' => if is_ws c then skip_ws s' else s
  | [] => []
  end.

Definition is_digit (c : N) : bool := (48 <=? c) && (c <=? 57).

Definition hex_value (c : N) : option N :=
  if is_digit c then Some (c - 48)
  else if (97 <=? c) && (c <=? 102) then Some (c - 87)
  else if (65 <=? c) && (c <=? 70) then Some (c - 55)
  else None.

Definition hex4 (s : str) : option (N * str) :=
  match s with
  | a :: b :: c :: d :: r =>
      match hex_value a, hex_value b, hex_value c, hex_value d with
      | Some a, Some b, Some c, Some d =>
          Some (a * 4096 + b * 256 + c * 16 + d, r)
      | _, _, _, _ => None
      end
  | _ => None
  end.

Definition is_high_surrogate (c : N) : bool := (55296 <=? c) && (c <=? 56319).
Definition is_low_surrogate (c : N) : bool := (56320 <=? c) && (c <=? 57343).

Definition simple_escape (c : N) : option N :=
  if c =? 34 then Some 34          (* quote *)
  else if c =? 92 then Some 92     (* backslash *)
  else if c =? 47 then Some 47     (* slash *)
  else if c =? 98 then Some 8      (* b *)
  else if c =? 102 then Some 12    (* f *)
  else if c =? 110 then Some 10    (* n *)
  else if c =? 114 then Some 13    (* r *)
  else if c =? 116 then Some 9     (* t *)
  else None.

(** The characters after an opening quote, up to the closing one. *)
Fixpoint scanstring (fuel : nat) (s : str) (acc : str) : option (str * str) :=
  match fuel with
  | O => None
  | S f =>
      match s with
      | [] => None
      | c :: r =>
          if c =? 34 then Some (rev acc, r)
          else if c =? 92 then
            match r with
            | [] => None
            | e :: r1 =>
                if e =? 117 then
                  match hex4 r1 with
                  | None => None
                  | Some (u, r2) =>
                      match r2 with
                      | 92 :: 117 :: r3 =>
                          if is_high_surrogate u then
                            match hex4 r3 with
                            | None => None
                            | Some (u2, r4) =>
                                if is_low_surrogate u2
                                then scanstring f r4
                                       (65536 + (u - 55296) * 1024
                                        + (u2 - 56320) :: acc)
                                else scanstring f r2 (u :: acc)
                            end
                          else scanstring f r2 (u :: acc)
                      | _ => scanstring f r2 (u :: acc)
                      end
                  end
                else
                  match simple_escape e with
                  | Some x => scanstring f r1 (x :: acc)
                  | None => None
                  end
            end
          else if c <=? 31 then None
          else scanstring f r (c :: acc)
      end
  end.

(** A run of digits continuing the number [acc]; [k] counts them. *)
Fixpoint digits (s : str) (acc : Z) (k : Z) : Z * Z * str :=
  match s with
  | c :: s' =>
      if is_digit c
      then digits s' (acc * 10 + Z.of_N (c - 48))%Z (k + 1)%Z
      else (acc, k, s)
  | [] => (acc, k, s)
  end.

Definition fraction (ip : Z) (s : str) : Z * Z * str * bool :=
  match s with
  | 46 :: d :: r =>
      if is_digit d
      then let '(v, k, r') := digits (d :: r) ip 0%Z in (v, (- k)%Z, r', true)
      else (ip, 0%Z, s, false)
  | _ => (ip, 0%Z, s, false)
  end.

Definition exponent (s : str) : option (Z * str) :=
  match s with
  | e :: r =>
      if (e =? 101) || (e =? 69) then
        let '(neg, r') :=
          match r with
          | 45 :: t => (true, t)
          | 43 :: t => (false, t)
          | _ => (false, r)
          end in
        match r' with
        | d :: _ =>
            if is_digit d
            then let '(v, _, rest) := digits r' 0%Z 0%Z in
                 Some (if neg then (- v)%Z else v, rest)
            else None
        | [] => None
        end
      else None
  | [] => None
  end.

(** An integer part, a fraction and an exponent; the last two are optional
    and either makes the number a float. *)
Definition match_number (s : str) : option (pyval * str) :=
  let '(neg, s1) :=
    match s with
    | 45 :: r => (true, r)
    | _ => (false, s)
    end in
  match s1 with
  | c :: r =>
      if is_digit c then
        let '(ip, _, r1) := if c =? 48 then (0%Z, 1%Z, r) else digits s1 0%Z 0%Z in
        let '(m, fe, r2, has_frac) := fraction ip r1 in
        let m' := if neg then (- m)%Z else m in
        match exponent r2 with
        | Some (ex, r3) => Some (PFloat (FDec m' (fe + ex)), r3)
        | None =>
            Some (if has_frac then PFloat (FDec m' fe) else PInt m', r2)
        end
      else None
  | [] => None
  end.

Fixpoint strip_prefix (p s : str) : option str :=
  match p, s with
  | [], _ => Some s
  | a :: p', b :: s' => if a =? b then strip_prefix p' s' else None
  | _ :: _, [] => None
  end.

Definition constants : list (str * pyval) :=
  [ (lit "null", PNone);
    (lit "true", PBool true);
    (lit "false", PBool false);
    (lit "NaN", PFloat FNaN);
    (lit "Infinity", PFloat (FInf false));
    (lit "-Infinity", PFloat (FInf true)) ].

Fixpoint match_constant (cs : list (str * pyval)) (s : str)
  : option (pyval * str) :=
  match cs with
  | [] => None
  | (name, v) :: cs' =>
      match strip_prefix name s with
      | Some r => Some (v, r)
      | None => match_constant cs' s
      end
  end.

Fixpoint scan_once (fuel : nat) (s : str) {struct fuel} : option (pyval * str) :=
  match fuel with
  | O => None
  | S f =>
      match s with
      | [] => None
      | c :: r =>
          if c =? 34 then
            match scanstring (List.length s) r [] with
            | Some (x, r') => Some (PStr x, r')
            | None => None
            end
          else if c =? 123 then
            match skip_ws r with
            | 125 :: r' => Some (PDict [], r')
            | r' => parse_object f r' []
            end
          else if c =? 91 then
            match skip_ws r with
            | 93 :: r' => Some (PList [], r')
            | r' => parse_array f r' []
            end
          else
            match match_constant constants s with
            | Some x => Some x
            | None => match_number s
            end
      end
  end
with parse_array (fuel : nat) (s : str) (acc : list pyval) {struct fuel}
  : option (pyval * str) :=
  match fuel with
  | O => None
  | S f =>
      match scan_once f s with
      | None => None
      | Some (v, r) =>
          match skip_ws r with
          | 93 :: r' => Some (PList (rev (v :: acc)), r')
          | 44 :: r' => parse_array f (skip_ws r') (v :: acc)
          | _ => None
          end
      end
  end
with parse_object (fuel : nat) (s : str) (acc : dict) {struct fuel}
  : option (pyval * str) :=
  match fuel with
  | O => None
  | S f =>
      match s with
      | 34 :: r =>
          match scanstring (List.length s) r [] with
          | None => None
          | Some (key, r1) =>
              match skip_ws r1 with
              | 58 :: r2 =>
                  match scan_once f (skip_ws r2) with
                  | None => None
                  | Some (v, r3) =>
                      let acc' := dict_set acc key v in
                      match skip_ws r3 with
                      | 125 :: r4 => Some (PDict acc', r4)
                      | 44 :: r4 => parse_object f (skip_ws r4) acc'
                      | _ => None
                      end
                  end
              | _ => None
              end
          end
      | _ => None
      end
  end.

(** [json.loads(s)]: one value between optional whitespace, and nothing
    after it; a leading byte order mark is refused. *)
Definition loads (s : str) : option pyval :=
  match s with
  | 65279 :: _ => None
  | _ =>
      match scan_once (2 * List.length s + 2) (skip_ws s) with
      | Some (v, r) =>
          match skip_ws r with
          | [] => Some v
          | _ :: _ => None
          end
      | None => None
      end
  end.

End Json.

(** ** The HTTP layer, as the client observes it

    Of a [requests.Response] the client reads [ok], [status_code], [text]
    and the outcome of [json()].  [received] builds the response for a
    status and a body, [json()] being the decoder run on the body; [why] is
    the description the [JSONDecodeError] carries when the body does not
    decode. *)

Record Response := {
  status_code : Z;
  text : str;
  json : result pyval
}.

(** [response.ok]: the status is not a client or a server error. *)
Definition ok (r : Response) : bool :=
  negb ((400 <=? status_code r) && (status_code r <? 600))%Z.

Definition received (status : Z) (body : str) (why : str) : Response :=
  {| status_code := status;
     text := body;
     json := match Json.loads body with
             | Some v => Ok v
             | None => Raise (JSONDecodeError why)
             end |}.

(** The session holds the headers the client adds to it. *)
Record Session := {
  headers : list (str * str)
}.

Record RapidWireClient := {
  base_url : str;
  _session : Session
}.

(** ** Effects

    What a call does besides returning or raising: the requests it hands
    to the session and the lines it prints, in order. *)

Inductive event :=
| Sent (session : Session) (method url : str) (kwargs : dict)
| Printed (line : str).

Definition io (A : Type) : Type := (list event * result A)%type.

Definition io_ret (A : Type) (a : A) : io A := ([], Ok a).

Definition io_raise (A : Type) (e : exn) : io A := ([], Raise e).

Arguments io_raise {A} e.

Definition lift (A : Type) (r : result A) : io A := ([], r).

Definition io_bind (A B : Type) (m : io A) (k : A -> io B) : io B :=
  match m with
  | (t, Ok a) => let (t', r) := k a in (t ++ t', r)
  | (t, Raise e) => (t, Raise e)
  end.

(** [try: m  except E as e: handler], [catches] being [isinstance(_, E)]. *)
Definition try_except (A : Type) (m : io A) (catches : exn -> bool)
  (handler : exn -> io A) : io A :=
  match m with
  | (t, Raise e) =>
      if catches e then let (t', r) := handler e in (t ++ t', r)
      else (t, Raise e)
  | (t, Ok a) => (t, Ok a)
  end.

(** [print(line)], [write] being what standard output does with a line:
    the line is written, or the stream raises (a [UnicodeEncodeError] for a
    line it cannot encode).  [Printed] records a call of [print] that has
    returned. *)
Definition print (write : str -> result unit) (line : str) : io unit :=
  match write line with
  | Ok _ => ([Printed line], Ok tt)
  | Raise e => ([], Raise e)
  end.

Definition events (A : Type) (m : io A) : list event := fst m.

Definition outcome (A : Type) (m : io A) : result A := snd m.

(** The lines printed, in order. *)
Fixpoint stdout (t : list event) : list str :=
  match t with
  | [] => []
  | Printed line :: t' => line :: stdout t'
  | Sent _ _ _ _ :: t' => stdout t'
  end.

Declare Scope io_scope.
Delimit Scope io_scope with io.
Notation "x <- m ;; k" := (io_bind m (fun x => k))
  (at level 61, m at next level, right associativity) : io_scope.

(** [str(e)] of an exception of [requests]: its description. *)
Definition description (e : exn) : str :=
  match e with
  | RequestException d => d
  | JSONDecodeError d => d
  | _ => []
  end.

Definition CLIENT_VERSION : str := lit "1.0.0".

Definition default_base_url : str := lit "http://127.0.0.1:14550".

Section Client.

(** [session.request(method, url, **kwargs)]: the network's answer, a
    response or an exception of [requests]. *)
Variable session_request : Session -> str -> str -> dict -> result Response.

(** What an f-string writes for a value that is neither a str nor an int. *)
Variable format_other : pyval -> str.

(** Standard output: what writing a line to it does. *)
Variable stdout_write : str -> result unit.

(** The ints that reach this are the status of a response and the integers
    the decoder accepts, which are within the limit of [format_int]. *)
Definition format_value (v : pyval) : str :=
  match v with
  | PStr s => s
  | PInt n => str_of_int n
  | _ => format_other v
  end.

(** The message [RapidWireAPIError.__init__] passes to [Exception]. *)
Definition message (status : Z) (detail : pyval) : str :=
  lit "API Error " ++ str_of_int status ++ lit ": " ++ format_value detail.

Definition send (s : Session) (method url : str) (kwargs : dict)
  : io Response :=
  ([Sent s method url kwargs], session_request s method url kwargs).

Local Open Scope io_scope.

Definition _request (self : RapidWireClient) (method endpoint : str)
  (kwargs : dict) : io pyval :=
  let url := base_url self ++ endpoint in
  try_except
    (response <- send (_session self) method url kwargs ;;
     if negb (ok response) then
       let error_detail := PStr (lit "Unknown error") in
       error_detail <-
         try_except
           (lift (rbind (json response)
                    (fun body => call_get body (lit "detail") error_detail)))
           is_JSONDecodeError
           (fun _ => io_ret (PStr (text response))) ;;
       io_raise (RapidWireAPIError (status_code response) error_detail)
     else if (status_code response =? 204)%Z then io_ret PNone
     else lift (json response))
    is_RequestException
    (fun e =>
       io_raise
         (RapidWireAPIError 500
            (PStr (lit "Request failed: " ++ description e)))).

(** The list comprehension of class [c] on [**x] for [x] in [data]. *)
Definition construct_each (c : dataclass) (data : pyval) : result pyval :=
  match py_iter data with
  | Ok items =>
      match mapM (construct c) items with
      | Ok objs => Ok (PList objs)
      | Raise e => Raise e
      end
  | Raise e => Raise e
  end.

(** [data[key] = f(data[key])] *)
Definition hydrate (data : pyval) (key : str) (f : pyval -> result pyval)
  : result pyval :=
  match getitem data key with
  | Ok raw =>
      match f raw with
      | Ok v => setitem data key v
      | Raise e => Raise e
      end
  | Raise e => Raise e
  end.

(** *** Info endpoints *)

Definition get_version (self : RapidWireClient) : io pyval :=
  data <- _request self (lit "GET") (lit "/version") [] ;;
  lift (construct SuccessResponse data).

Definition get_config (self : RapidWireClient) : io pyval :=
  data <- _request self (lit "GET") (lit "/config") [] ;;
  data <- lift (hydrate data (lit "base_currency") (construct CurrencyInfo)) ;;
  lift (construct Config data).

(** *** Account endpoints *)

Definition get_balance (self : RapidWireClient) : io pyval :=
  data <- _request self (lit "GET") (lit "/account/balance") [] ;;
  lift (construct Balance data).

Definition get_history (self : RapidWireClient) (page : Z) : io pyval :=
  data <- _request self (lit "GET") (lit "/account/history")
            [(lit "params", PDict [(lit "page", PInt page)])] ;;
  lift (construct_each HistoryEntry data).

Definition get_my_stock_orders (self : RapidWireClient) : io pyval :=
  data <- _request self (lit "GET") (lit "/account/stock/orders") [] ;;
  lift (construct_each UserOrder data).

(** *** Public info endpoints *)

Definition get_currency_info (self : RapidWireClient) (symbol : str)
  : io pyval :=
  data <- _request self (lit "GET") (lit "/currency/" ++ upper symbol) [] ;;
  lift (construct CurrencyInfo data).

Definition get_stock_info (self : RapidWireClient) (symbol : str) : io pyval :=
  data <- _request self (lit "GET") (lit "/stock/" ++ upper symbol) [] ;;
  lift (construct StockInfo data).

(** *** Transfer endpoints *)

Definition transfer_currency (self : RapidWireClient) (recipient_id : Z)
  (asset_symbol : str) (amount : Z) : io pyval :=
  let payload :=
    PDict [ (lit "recipient_id", PInt recipient_id);
            (lit "asset_symbol", PStr (upper asset_symbol));
            (lit "amount", PInt amount) ] in
  data <- _request self (lit "POST") (lit "/currency/transfer")
            [(lit "json", payload)] ;;
  lift (construct SuccessResponse data).

Definition transfer_stock (self : RapidWireClient) (recipient_id : Z)
  (asset_symbol : str) (amount : Z) : io pyval :=
  let payload :=
    PDict [ (lit "recipient_id", PInt recipient_id);
            (lit "asset_symbol", PStr (upper asset_symbol));
            (lit "amount", PInt amount) ] in
  data <- _request self (lit "POST") (lit "/stock/transfer")
            [(lit "json", payload)] ;;
  lift (construct SuccessResponse data).

(** *** Trading endpoints *)

Definition get_stock_orderbook (self : RapidWireClient) (symbol : str)
  : io pyval :=
  data <- _request self (lit "GET")
            (lit "/stock/" ++ upper symbol ++ lit "/orderbook") [] ;;
  data <- lift (hydrate data (lit "orders") (construct_each OrderbookEntry)) ;;
  lift (construct Orderbook data).

Definition create_sell_order (self : RapidWireClient) (stock_symbol : str)
  (price amount : Z) : io pyval :=
  let payload :=
    PDict [ (lit "stock_symbol", PStr (upper stock_symbol));
            (lit "price", PInt price);
            (lit "amount", PInt amount) ] in
  data <- _request self (lit "POST") (lit "/market/stock/sell-order")
            [(lit "json", payload)] ;;
  lift (construct SuccessResponse data).

Definition market_buy_stock (self : RapidWireClient) (stock_symbol : str)
  (amount : Z) : io pyval :=
  let payload :=
    PDict [ (lit "stock_symbol", PStr (upper stock_symbol));
            (lit "amount", PInt amount) ] in
  data <- _request self (lit "POST") (lit "/market/stock/market-buy")
            [(lit "json", payload)] ;;
  lift (construct SuccessResponse data).

Definition cancel_sell_order (self : RapidWireClient) (order_id : Z)
  : io pyval :=
  order_id <- lift (format_int order_id) ;;
  data <- _request self (lit "DELETE")
            (lit "/market/stock/sell-order/" ++ order_id) [] ;;
  lift (construct SuccessResponse data).

Definition get_liquidity_info (self : RapidWireClient) (symbol : str)
  : io pyval :=
  data <- _request self (lit "GET")
            (lit "/market/currency/liquidity/" ++ upper symbol) [] ;;
  lift (construct LiquidityInfo data).

Definition buy_currency (self : RapidWireClient) (currency_symbol : str)
  (amount_in : Z) : io pyval :=
  let payload :=
    PDict [ (lit "currency_symbol", PStr (upper currency_symbol));
            (lit "amount", PInt amount_in) ] in
  data <- _request self (lit "POST") (lit "/market/currency/buy")
            [(lit "json", payload)] ;;
  lift (construct SuccessResponse data).

Definition sell_currency (self : RapidWireClient) (currency_symbol : str)
  (amount_in : Z) : io pyval :=
  let payload :=
    PDict [ (lit "currency_symbol", PStr (upper currency_symbol));
            (lit "amount", PInt amount_in) ] in
  data <- _request self (lit "POST") (lit "/market/currency/sell")
            [(lit "json", payload)] ;;
  lift (construct SuccessResponse data).

(** *** Construction and the version check *)

Definition warning_unknown : str :=
  lit "Warning: サーバーのバージョンを特定できませんでした。互換性は保証されません。".

Definition warning_mismatch (client server : str) : str :=
  lit "Warning: クライアントバージョン (" ++ client
  ++ lit ") とサーバーバージョン (" ++ server ++ lit ") の "
  ++ lit "メジャーバージョンが一致しません。機能が正常に動作しない可能性があります。".

Definition warning_unreachable (e : str) : str :=
  lit "Warning: バージョン確認のためにサーバーへの接続に失敗しました: " ++ e
  ++ lit "。 " ++ lit "クライアントに互換性がない可能性があります。".

(** [str(e)], as the f-string of the last warning writes the exception. *)
Definition exn_str (e : exn) : str :=
  match e with
  | RapidWireAPIError status detail => message status detail
  | _ => description e
  end.

Definition _check_version (self : RapidWireClient) : io unit :=
  try_except
    (server_version_response <- get_version self ;;
     details <- lift (getattr server_version_response (lit "details")) ;;
     server_version_str <- lift (call_get details (lit "version") PNone) ;;
     if negb (truthy server_version_str)
     then print stdout_write warning_unknown
     else
       client_major <- lift (list_getitem (split 46 CLIENT_VERSION) 0) ;;
       server_parts <- lift (call_split server_version_str 46) ;;
       server_major <- lift (list_getitem server_parts 0) ;;
       if negb (str_eqb client_major server_major)
       then print stdout_write
              (warning_mismatch CLIENT_VERSION
                 (format_value server_version_str))
       else io_ret tt)
    is_RapidWireAPIError
    (fun e => print stdout_write (warning_unreachable (exn_str e))).

(** The constructor; its result is the object it has initialised. *)
Definition __init__ (api_key : str) (base_url : str) : io RapidWireClient :=
  if negb (truthy (PStr api_key))
  then io_raise (ValueError (lit "APIキーは必須です。"))
  else
    let self :=
      {| base_url := rstrip 47 base_url;
         _session :=
           {| headers := [ (lit "API-Key", api_key);
                           (lit "Content-Type", lit "application/json") ] |}
      |} in
    _ <- _check_version self ;;
    io_ret self.

End Client.


(** ** Vocabulary of the statements *)

Definition field_names (c : dataclass) : list str :=
  map f_name (cls_fields c).

(** The fields [__init__] cannot do without. *)
Definition required_names (c : dataclass) : list str :=
  map f_name
    (filter (fun f => match f_default f with None => true | Some _ => false end)
       (cls_fields c)).

(** The full uppercase mapping leaves the code point [d] as it is. *)
Definition fixed_by_upper (d : N) : bool :=
  str_eqb (to_upper_full d) [d].

(** What stands before the first full stop of a version string. *)
Fixpoint leading_component (s : str) : str :=
  match s with
  | [] => []
  | c :: s' => if (c =? 46)%N then [] else c :: leading_component s'
  end.

(** An orderbook entry and the object it is hydrated into. *)
Definition hydrated (entry obj : pyval) : Prop :=
  exists d price amount,
    entry = PDict d
    /\ dict_get d (lit "price") = Some price
    /\ dict_get d (lit "amount") = Some amount
    /\ obj = PObj (lit "OrderbookEntry")
               [(lit "price", price); (lit "amount", amount)].

(** The keys of [kw] are all fields of [c], and no field without a default
    is absent from them. *)
Definition keys_fit (c : dataclass) (kw : dict) : Prop :=
  (forall k, In k (dict_keys kw) -> In k (field_names c))
  /\ (forall k, In k (required_names c) -> In k (dict_keys kw)).


(** [r], the result of mapping [kw] into [c], is a [TypeError] when [kw] has
    a key that is no field and when it lacks a required field, and an
    instance of [c] otherwise. *)
Definition strict_on_keys (c : dataclass) (kw : dict) (r : result pyval)
  : Prop :=
  ((exists k, In k (dict_keys kw) /\ ~ In k (field_names c)) ->
   r = Raise TypeError)
  /\ ((exists k, In k (required_names c) /\ ~ In k (dict_keys kw)) ->
      r = Raise TypeError)
  /\ (keys_fit c kw -> exists attrs, r = Ok (PObj (cls_name c) attrs)).

(** The client [__init__] builds for a key and a base address. *)
Definition client_of (api_key base_url : str) : RapidWireClient :=
  {| base_url := rstrip 47 base_url;
     _session :=
       {| headers := [ (lit "API-Key", api_key);
                       (lit "Content-Type", lit "application/json") ] |} |}.

(** *** The operations as one family

    To say something of every public operation at once: the calls a user
    can make, [perform] running each through the method of the client. *)

Inductive operation :=
| GetVersion
| GetConfig
| GetBalance
| GetHistory (page : Z)
| GetMyStockOrders
| GetCurrencyInfo (symbol : str)
| GetStockInfo (symbol : str)
| TransferCurrency (recipient_id : Z) (asset_symbol : str) (amount : Z)
| TransferStock (recipient_id : Z) (asset_symbol : str) (amount : Z)
| GetStockOrderbook (symbol : str)
| CreateSellOrder (stock_symbol : str) (price amount : Z)
| MarketBuyStock (stock_symbol : str) (amount : Z)
| CancelSellOrder (order_id : Z)
| GetLiquidityInfo (symbol : str)
| BuyCurrency (currency_symbol : str) (amount_in : Z)
| SellCurrency (currency_symbol : str) (amount_in : Z).

Definition perform
  (net : Session -> str -> str -> dict -> result Response)
  (self : RapidWireClient) (o : operation) : io pyval :=
  match o with
  | GetVersion => get_version net self
  | GetConfig => get_config net self
  | GetBalance => get_balance net self
  | GetHistory page => get_history net self page
  | GetMyStockOrders => get_my_stock_orders net self
  | GetCurrencyInfo s => get_currency_info net self s
  | GetStockInfo s => get_stock_info net self s
  | TransferCurrency r s a => transfer_currency net self r s a
  | TransferStock r s a => transfer_stock net self r s a
  | GetStockOrderbook s => get_stock_orderbook net self s
  | CreateSellOrder s p a => create_sell_order net self s p a
  | MarketBuyStock s a => market_buy_stock net self s a
  | CancelSellOrder i => cancel_sell_order net self i
  | GetLiquidityInfo s => get_liquidity_info net self s
  | BuyCurrency s a => buy_currency net self s a
  | SellCurrency s a => sell_currency net self s a
  end.

(** The request an operation is expected to make: method, endpoint and
    keyword arguments. *)
Record request := Request {
  req_method : str;
  req_endpoint : str;
  req_kwargs : dict
}.

Definition json_payload (fields : dict) : dict := [(lit "json", PDict fields)].

(** The request of each operation, or the exception the operation raises
    before it has one: [cancel_sell_order] formats the order id into the
    path. *)
Definition request_of (o : operation) : result request :=
  match o with
  | GetVersion => Ok (Request (lit "GET") (lit "/version") [])
  | GetConfig => Ok (Request (lit "GET") (lit "/config") [])
  | GetBalance => Ok (Request (lit "GET") (lit "/account/balance") [])
  | GetHistory page =>
      Ok (Request (lit "GET") (lit "/account/history")
            [(lit "params", PDict [(lit "page", PInt page)])])
  | GetMyStockOrders =>
      Ok (Request (lit "GET") (lit "/account/stock/orders") [])
  | GetCurrencyInfo s =>
      Ok (Request (lit "GET") (lit "/currency/" ++ upper s) [])
  | GetStockInfo s => Ok (Request (lit "GET") (lit "/stock/" ++ upper s) [])
  | TransferCurrency r s a =>
      Ok (Request (lit "POST") (lit "/currency/transfer")
            (json_payload [ (lit "recipient_id", PInt r);
                            (lit "asset_symbol", PStr (upper s));
                            (lit "amount", PInt a) ]))
  | TransferStock r s a =>
      Ok (Request (lit "POST") (lit "/stock/transfer")
            (json_payload [ (lit "recipient_id", PInt r);
                            (lit "asset_symbol", PStr (upper s));
                            (lit "amount", PInt a) ]))
  | GetStockOrderbook s =>
      Ok (Request (lit "GET") (lit "/stock/" ++ upper s ++ lit "/orderbook")
            [])
  | CreateSellOrder s p a =>
      Ok (Request (lit "POST") (lit "/market/stock/sell-order")
            (json_payload [ (lit "stock_symbol", PStr (upper s));
                            (lit "price", PInt p);
                            (lit "amount", PInt a) ]))
  | MarketBuyStock s a =>
      Ok (Request (lit "POST") (lit "/market/stock/market-buy")
            (json_payload [ (lit "stock_symbol", PStr (upper s));
                            (lit "amount", PInt a) ]))
  | CancelSellOrder i =>
      match format_int i with
      | Ok id =>
          Ok (Request (lit "DELETE") (lit "/market/stock/sell-order/" ++ id)
                [])
      | Raise e => Raise e
      end
  | GetLiquidityInfo s =>
      Ok (Request (lit "GET") (lit "/market/currency/liquidity/" ++ upper s)
            [])
  | BuyCurrency s a =>
      Ok (Request (lit "POST") (lit "/market/currency/buy")
            (json_payload [ (lit "currency_symbol", PStr (upper s));
                            (lit "amount", PInt a) ]))
  | SellCurrency s a =>
      Ok (Request (lit "POST") (lit "/market/currency/sell")
            (json_payload [ (lit "currency_symbol", PStr (upper s));
                            (lit "amount", PInt a) ]))
  end.

(** The request of [o], run through [_request]; the exception of
    [request_of] when there is no request. *)
Definition request_outcome
  (net : Session -> str -> str -> dict -> result Response)
  (self : RapidWireClient) (o : operation) : result pyval :=
  match request_of o with
  | Ok q =>
      outcome (_request net self (req_method q) (req_endpoint q)
                 (req_kwargs q))
  | Raise e => Raise e
  end.

(** What the network answers to the request of [o], when there is one. *)
Definition answer_to
  (net : Session -> str -> str -> dict -> result Response)
  (self : RapidWireClient) (o : operation) : result Response :=
  match request_of o with
  | Ok q =>
      net (_session self) (req_method q) (base_url self ++ req_endpoint q)
        (req_kwargs q)
  | Raise e => Raise e
  end.

(** The class an operation declares for what it returns, and whether it
    returns a list of such. *)
Definition result_class (o : operation) : dataclass :=
  match o with
  | GetConfig => Config
  | GetBalance => Balance
  | GetHistory _ => HistoryEntry
  | GetMyStockOrders => UserOrder
  | GetCurrencyInfo _ => CurrencyInfo
  | GetStockInfo _ => StockInfo
  | GetStockOrderbook _ => Orderbook
  | GetLiquidityInfo _ => LiquidityInfo
  | GetVersion | TransferCurrency _ _ _ | TransferStock _ _ _
  | CreateSellOrder _ _ _ | MarketBuyStock _ _ | CancelSellOrder _
  | BuyCurrency _ _ | SellCurrency _ _ => SuccessResponse
  end.

Definition returns_list (o : operation) : bool :=
  match o with
  | GetHistory _ | GetMyStockOrders => true
  | _ => false
  end.

(** [v] is an object of class [c], with the fields of [c] as attributes. *)
Definition is_instance (c : dataclass) (v : pyval) : Prop :=
  exists attrs, v = PObj (cls_name c) attrs /\ map fst attrs = field_names c.

(** The same call, the caller having uppercased the symbol. *)
Definition with_upper_symbol (o : operation) : operation :=
  match o with
  | GetCurrencyInfo s => GetCurrencyInfo (upper s)
  | GetStockInfo s => GetStockInfo (upper s)
  | TransferCurrency r s a => TransferCurrency r (upper s) a
  | TransferStock r s a => TransferStock r (upper s) a
  | GetStockOrderbook s => GetStockOrderbook (upper s)
  | CreateSellOrder s p a => CreateSellOrder (upper s) p a
  | MarketBuyStock s a => MarketBuyStock (upper s) a
  | GetLiquidityInfo s => GetLiquidityInfo (upper s)
  | BuyCurrency s a => BuyCurrency (upper s) a
  | SellCurrency s a => SellCurrency (upper s) a
  | GetVersion | GetConfig | GetBalance | GetHistory _ | GetMyStockOrders
  | CancelSellOrder _ => o
  end.

(** What an operation does with the body [_request] returned. *)
Definition mapping (o : operation) (data : pyval) : result pyval :=
  match o with
  | GetConfig =>
      rbind (hydrate data (lit "base_currency") (construct CurrencyInfo))
        (construct Config)
  | GetStockOrderbook _ =>
      rbind (hydrate data (lit "orders") (construct_each OrderbookEntry))
        (construct Orderbook)
  | GetHistory _ | GetMyStockOrders => construct_each (result_class o) data
  | _ => construct (result_class o) data
  end.

(** [s] ends with a slash. *)
Definition ends_with_slash (s : str) : Prop := exists s', s = s' ++ [47%N].

(** A value that is no dict. *)
Definition is_dict (v : pyval) : bool :=
  match v with
  | PDict _ => true
  | _ => false
  end.

Definition is_str (v : pyval) : bool :=
  match v with
  | PStr _ => true
  | _ => false
  end.

(** ** Networks and documents of the examples

    A JSON document is written with ['] where it has a double quote. *)

Definition dq (s : string) : str :=
  map (fun c => if (c =? 39)%N then 34%N else c) (lit s).

(** The network that gives the same answer to every request. *)
Definition answer (r : result Response)
  : Session -> str -> str -> dict -> result Response :=
  fun _ _ _ _ => r.

(** The description of the decoder's error for a body that starts with no
    JSON value. *)
Definition expecting_value : str :=
  lit "Expecting value: line 1 column 1 (char 0)".

Definition replies (status : Z) (body : string)
  : Session -> str -> str -> dict -> result Response :=
  answer (Ok (received status (dq body) expecting_value)).

(** The three constants as an f-string writes them; the examples format no
    other value. *)
Definition format_constant (v : pyval) : str :=
  match v with
  | PNone => lit "None"
  | PBool true => lit "True"
  | PBool false => lit "False"
  | _ => lit "..."
  end.

(** A code point of the surrogate range, which no encoding of standard
    output writes. *)
Definition is_surrogate (c : N) : bool := ((55296 <=? c) && (c <=? 57343))%N.

(** Standard output in UTF-8: every line is written but one that holds a
    surrogate. *)
Definition utf8_stdout (line : str) : result unit :=
  if existsb is_surrogate line then Raise UnicodeEncodeError else Ok tt.

(** Standard output in Latin-1: a line is written when all its code points
    are below 256. *)
Definition latin1_stdout (line : str) : result unit :=
  if forallb (fun c => (c <? 256)%N) line then Ok tt
  else Raise UnicodeEncodeError.



(** An error whose detail is a lone surrogate. *)
Definition error_with_surrogate_detail := replies 404 "{'detail': '\ud800'}".

(** The least order id with more digits than an f-string writes. *)
Definition huge_order_id : Z := 10 ^ 4300.

Definition bot : RapidWireClient := client_of (lit "secret") default_base_url.

Definition refused : Session -> str -> str -> dict -> result Response :=
  answer (Raise (RequestException (lit "Connection refused"))).

Definition currency_not_found := replies 404 "{'detail': 'Currency not found'}".

Definition bad_gateway_empty := replies 502 "".

Definition proxy_page := replies 200 "<html>Bad Gateway</html>".

Definition no_content := replies 204 "".

Definition version_2_3_1 :=
  replies 200 "{'message': 'RapidWire API', 'details': {'version': '2.3.1'}}".

Definition version_without_details := replies 200 "{'message': 'RapidWire API'}".



Definition balance_scenario :=
  replies 200 "{'currencies': {'USD': 100}, 'stocks': {'ACME': 5}}".

Definition balance_scenario_object : dict :=
  [ (lit "currencies", PDict [(lit "USD", PInt 100)]);
    (lit "stocks", PDict [(lit "ACME", PInt 5)]) ].

Definition balance_with_extra :=
  replies 200
    "{'currencies': {'USD': 100}, 'stocks': {'ACME': 5}, 'updated_at': 1700000000}".

Definition orderbook_scenario :=
  replies 200
    "{'stock_symbol':'ACME','orders':[{'price':10,'amount':3},{'price':11,'amount':1}]}".

Definition orderbook_scenario_entries : list pyval :=
  [ PDict [(lit "price", PInt 10); (lit "amount", PInt 3)];
    PDict [(lit "price", PInt 11); (lit "amount", PInt 1)] ].

Definition orderbook_scenario_object : dict :=
  [ (lit "stock_symbol", PStr (lit "ACME"));
    (lit "orders", PList orderbook_scenario_entries) ].

Definition entry_object (price amount : Z) : pyval :=
  PObj (lit "OrderbookEntry")
    [(lit "price", PInt price); (lit "amount", PInt amount)].

Definition balance_with_extra_object : dict :=
  [ (lit "currencies", PDict [(lit "USD", PInt 100)]);
    (lit "stocks", PDict [(lit "ACME", PInt 5)]);
    (lit "updated_at", PInt 1700000000) ].

Definition order_cancelled := replies 200 "{'message': 'Order cancelled'}".

(** The request that cancels order 7. *)
Definition cancel_order_7 : request :=
  Request (lit "DELETE") (lit "/market/stock/sell-order/7") [].

Definition config_without_currency := replies 200 "{'decimal_places': 2}".

Definition config_scenario :=
  replies 200
    "{'decimal_places': 2, 'base_currency': {'id': 1, 'symbol': 'RWC', 'name': 'RapidWire Coin', 'supply': 1000000, 'issuer_id': null, 'description': null}}".

Definition config_scenario_currency : dict :=
  [ (lit "id", PInt 1);
    (lit "symbol", PStr (lit "RWC"));
    (lit "name", PStr (lit "RapidWire Coin"));
    (lit "supply", PInt 1000000);
    (lit "issuer_id", PNone);
    (lit "description", PNone) ].

Definition config_scenario_object : dict :=
  [ (lit "decimal_places", PInt 2);
    (lit "base_currency", PDict config_scenario_currency) ].

Definition my_orders_scenario :=
  replies 200
    "[{'order_id': 7, 'stock_symbol': 'ACME', 'price': 10, 'amount': 3, 'timestamp': 1700000000}]".

Definition my_orders_scenario_entry : dict :=
  [ (lit "order_id", PInt 7);
    (lit "stock_symbol", PStr (lit "ACME"));
    (lit "price", PInt 10);
    (lit "amount", PInt 3);
    (lit "timestamp", PInt 1700000000) ].

Definition redirect_with_object := replies 302 "{}".

Definition error_with_array := replies 404 "[1]".

Definition version_as_number :=
  replies 200 "{'message': 'RapidWire API', 'details': {'version': 2}}".

Definition version_details_empty :=
  replies 200 "{'message': 'RapidWire API', 'details': {}}".

Definition refused_detail : pyval :=
  PStr (lit "Request failed: " ++ lit "Connection refused").

(** Literals stay folded while the proofs simplify. *)
Arguments lit : simpl never.
Arguments format_int : simpl never.

(** * Properties *)

(** ** Strings *)

Lemma str_eqb_eq (a b : str) : str_eqb a b = true <-> a = b.
Proof.
  unfold str_eqb. destruct (list_eq_dec N.eq_dec a b); split; congruence.
Qed.

Lemma str_eqb_refl (a : str) : str_eqb a a = true.
Proof. apply str_eqb_eq. reflexivity. Qed.

Lemma str_eqb_neq (a b : str) : str_eqb a b = false <-> a <> b.
Proof.
  unfold str_eqb. destruct (list_eq_dec N.eq_dec a b); split; congruence.
Qed.

Lemma split_first (s : str) :
  list_getitem (split 46 s) 0 = Ok (leading_component s).
Proof.
  unfold list_getitem.
  induction s as [| c s IH]; simpl; [reflexivity |].
  destruct (c =? 46)%N; [reflexivity |].
  destruct (split 46 s) as [| piece pieces]; simpl in *; [discriminate |].
  congruence.
Qed.

(** ** Case mapping *)

(** Every code point the table maps to is mapped to itself; checked entry by
    entry. *)
Lemma uppercase_image_fixed :
  forallb (fun entry => forallb fixed_by_upper (snd entry))
    UnicodeData.uppercase = true.
Proof. vm_compute. reflexivity. Qed.

Lemma lookup_In (c : N) (t : list (N * list N)) (l : list N) :
  UnicodeData.lookup c t = Some l -> In (c, l) t.
Proof.
  induction t as [| [k v] t IH]; simpl; [discriminate |].
  destruct (N.eqb_spec k c) as [-> | _].
  - intros [= ->]. now left.
  - intros H. right. now apply IH.
Qed.

Lemma to_upper_full_fixed (c d : N) :
  In d (to_upper_full c) -> to_upper_full d = [d].
Proof.
  unfold to_upper_full at 1.
  destruct (is_ascii_lower c) eqn:Hlow.
  - intros [<- | []]. unfold is_ascii_lower in Hlow.
    apply andb_prop in Hlow as [H1 H2].
    apply N.leb_le in H1, H2.
    unfold to_upper_full, is_ascii_lower.
    replace ((97 <=? c - 32)%N) with false by (symmetry; apply N.leb_gt; lia).
    replace ((c - 32 <? 128)%N) with true by (symmetry; apply N.ltb_lt; lia).
    reflexivity.
  - destruct (c <? 128)%N eqn:Hascii.
    + intros [<- | []]. unfold to_upper_full. now rewrite Hlow, Hascii.
    + destruct (UnicodeData.lookup c UnicodeData.uppercase) as [l |] eqn:Hl.
      * intros Hd. apply lookup_In in Hl.
        pose proof uppercase_image_fixed as Hall.
        rewrite forallb_forall in Hall. specialize (Hall _ Hl). simpl in Hall.
        rewrite forallb_forall in Hall. specialize (Hall _ Hd).
        now apply str_eqb_eq in Hall.
      * intros [<- | []]. unfold to_upper_full. now rewrite Hlow, Hascii, Hl.
Qed.

Lemma flat_map_fixed (f : N -> list N) (l : list N) :
  (forall d, In d l -> f d = [d]) -> flat_map f l = l.
Proof.
  induction l as [| d l IH]; simpl; intros H; [reflexivity |].
  rewrite (H d) by now left. simpl. f_equal. apply IH. intros; apply H; now right.
Qed.

Lemma upper_app (s t : str) : upper (s ++ t) = (upper s ++ upper t)%list.
Proof. unfold upper. apply flat_map_app. Qed.

Lemma upper_idempotent (s : str) : upper (upper s) = upper s.
Proof.
  induction s as [| c s IH]; [reflexivity |].
  change (upper (c :: s)) with (to_upper_full c ++ upper s)%list.
  rewrite upper_app, IH. f_equal.
  apply flat_map_fixed. intros d Hd. now apply to_upper_full_fixed with c.
Qed.

Lemma upper_ascii_lower (s1 : str) (c : N) (s2 : str) :
  is_ascii_lower c = true ->
  upper (s1 ++ c :: s2) = (upper s1 ++ (c - 32)%N :: upper s2)%list.
Proof.
  intros H. rewrite upper_app. f_equal.
  change (upper (c :: s2)) with (to_upper_full c ++ upper s2)%list.
  unfold to_upper_full. now rewrite H.
Qed.

(** ** The effect monad *)

Lemma outcome_bind (A B : Type) (m : io A) (k : A -> io B) :
  outcome (io_bind m k) = rbind (outcome m) (fun a => outcome (k a)).
Proof.
  destruct m as [t [a | e]]; simpl; [| reflexivity].
  unfold outcome. destruct (k a); reflexivity.
Qed.

Lemma events_bind_lift (A B : Type) (m : io A) (f : A -> result B) :
  events (io_bind m (fun a => lift (f a))) = events m.
Proof.
  destruct m as [t [a | e]]; simpl; [| reflexivity].
  unfold events. simpl. apply app_nil_r.
Qed.

Lemma outcome_bind_lift (A B : Type) (m : io A) (f : A -> result B) :
  outcome (io_bind m (fun a => lift (f a))) = rbind (outcome m) f.
Proof. rewrite outcome_bind. reflexivity. Qed.

(** ** The transport *)

Section Transport.

Variable net : Session -> str -> str -> dict -> result Response.
Variables (self : RapidWireClient) (method endpoint : str) (kwargs : dict).

Lemma request_raised (e : exn) :
  net (_session self) method (base_url self ++ endpoint) kwargs = Raise e ->
  _request net self method endpoint kwargs
  = ([Sent (_session self) method (base_url self ++ endpoint) kwargs],
     if is_RequestException e
     then Raise (RapidWireAPIError 500
                   (PStr (lit "Request failed: " ++ description e)))
     else Raise e).
Proof.
  intros H. unfold _request, send, io_bind, try_except. rewrite H.
  destruct (is_RequestException e); reflexivity.
Qed.

Lemma request_error (r : Response) :
  net (_session self) method (base_url self ++ endpoint) kwargs = Ok r ->
  ok r = false ->
  _request net self method endpoint kwargs
  = ([Sent (_session self) method (base_url self ++ endpoint) kwargs],
     match json r with
     | Ok body =>
         match call_get body (lit "detail") (PStr (lit "Unknown error")) with
         | Ok detail => Raise (RapidWireAPIError (status_code r) detail)
         | Raise e => Raise e
         end
     | Raise (JSONDecodeError _) =>
         Raise (RapidWireAPIError (status_code r) (PStr (text r)))
     | Raise (RequestException d) =>
         Raise (RapidWireAPIError 500 (PStr (lit "Request failed: " ++ d)))
     | Raise e => Raise e
     end).
Proof.
  intros H Hok. unfold _request, send, io_bind. rewrite H, Hok. cbn.
  destruct (json r) as [body | e]; cbn.
  - destruct body; reflexivity || (cbn; destruct (dict_get _ _); reflexivity).
  - destruct e; reflexivity.
Qed.

Lemma request_success (r : Response) :
  net (_session self) method (base_url self ++ endpoint) kwargs = Ok r ->
  ok r = true ->
  _request net self method endpoint kwargs
  = ([Sent (_session self) method (base_url self ++ endpoint) kwargs],
     if (status_code r =? 204)%Z then Ok PNone
     else match json r with
          | Ok body => Ok body
          | Raise e =>
              if is_RequestException e
              then Raise (RapidWireAPIError 500
                            (PStr (lit "Request failed: " ++ description e)))
              else Raise e
          end).
Proof.
  intros H Hok. unfold _request, send, io_bind. rewrite H, Hok. cbn.
  destruct (status_code r =? 204)%Z; cbn; [reflexivity |].
  destruct (json r) as [body | e]; cbn; [reflexivity |].
  destruct (is_RequestException e); reflexivity.
Qed.

Lemma request_events :
  events (_request net self method endpoint kwargs)
  = [Sent (_session self) method (base_url self ++ endpoint) kwargs].
Proof.
  destruct (net (_session self) method (base_url self ++ endpoint) kwargs) as [r | e] eqn:H.
  - destruct (ok r) eqn:Hok.
    + now rewrite (request_success H Hok).
    + now rewrite (request_error H Hok).
  - now rewrite (request_raised H).
Qed.

Lemma status_204_ok (r : Response) : status_code r = 204%Z -> ok r = true.
Proof. unfold ok. intros ->. reflexivity. Qed.

Lemma status_2xx_ok (r : Response) :
  (200 <= status_code r < 300)%Z -> ok r = true.
Proof.
  unfold ok. intros H.
  replace (400 <=? status_code r)%Z with false by (symmetry; apply Z.leb_gt; lia).
  reflexivity.
Qed.

(** C5. When the transport fails, [_request] raises the single error of the
    client with the fixed status 500 and a detail that is not empty and ends
    with the description of the failure. *)
Theorem request_transport_failure (failure : str) :
  net (_session self) method (base_url self ++ endpoint) kwargs = Raise (RequestException failure) ->
  exists detail,
    outcome (_request net self method endpoint kwargs)
    = Raise (RapidWireAPIError 500 (PStr detail))
    /\ detail = (lit "Request failed: " ++ failure)%list
    /\ detail <> [].
Proof.
  intros H. rewrite (request_raised H). cbn.
  eexists. split; [reflexivity |]. split; [reflexivity |]. discriminate.
Qed.

(** C6. A response with status 204 makes [_request] return [None], whatever
    its body: not an empty object, not the decoded body, not an error. *)
Theorem request_no_content (r : Response) :
  net (_session self) method (base_url self ++ endpoint) kwargs = Ok r ->
  status_code r = 204%Z ->
  outcome (_request net self method endpoint kwargs) = Ok PNone
  /\ outcome (_request net self method endpoint kwargs) <> Ok (PDict [])
  /\ forall e, outcome (_request net self method endpoint kwargs) <> Raise e.
Proof.
  intros H H204. rewrite (request_success H (status_204_ok H204)), H204. cbn.
  repeat split; intros; discriminate.
Qed.

(** C10. A response with a status in the 2xx family other than 204 whose
    body does not decode makes [_request] raise the error of the client with
    status 500 and the description of the decoding failure; no value is
    returned and the decoder's exception does not reach the caller. *)
Theorem request_undecodable_success (r : Response) (why : str) :
  net (_session self) method (base_url self ++ endpoint) kwargs = Ok r ->
  (200 <= status_code r < 300)%Z ->
  status_code r <> 204%Z ->
  json r = Raise (JSONDecodeError why) ->
  outcome (_request net self method endpoint kwargs)
  = Raise (RapidWireAPIError 500 (PStr (lit "Request failed: " ++ why))).
Proof.
  intros H H2xx H204 Hjson.
  rewrite (request_success H (status_2xx_ok H2xx)), Hjson.
  apply Z.eqb_neq in H204. rewrite H204. reflexivity.
Qed.

(** C1, as the code has it.  For a response that is a client or a server
    error: a body that decodes to an object with a [detail] field gives that
    field's value as the detail; a body that decodes to an object without
    the field gives the detail "Unknown error"; a body that does not decode,
    the empty body included, gives the body text as the detail.  In each of
    these cases the error carries the status code of the response. *)
Theorem request_error_detail (r : Response) :
  net (_session self) method (base_url self ++ endpoint) kwargs = Ok r ->
  ok r = false ->
  (forall d v,
      json r = Ok (PDict d) -> dict_get d (lit "detail") = Some v ->
      outcome (_request net self method endpoint kwargs)
      = Raise (RapidWireAPIError (status_code r) v))
  /\ (forall d,
         json r = Ok (PDict d) -> dict_get d (lit "detail") = None ->
         outcome (_request net self method endpoint kwargs)
         = Raise (RapidWireAPIError (status_code r)
                    (PStr (lit "Unknown error"))))
  /\ (forall why,
         json r = Raise (JSONDecodeError why) ->
         outcome (_request net self method endpoint kwargs)
         = Raise (RapidWireAPIError (status_code r) (PStr (text r)))).
Proof.
  intros H Hok. rewrite (request_error H Hok).
  repeat split.
  - intros d v -> Hv. cbn. now rewrite Hv.
  - intros d -> Hv. cbn. now rewrite Hv.
  - intros why ->. reflexivity.
Qed.

End Transport.

(** ** Dictionaries *)

Lemma dict_get_In (A : Type) (d : list (str * A)) (k : str) :
  In k (dict_keys d) <-> dict_get d k <> None.
Proof.
  induction d as [| [k' v] d IH]; simpl.
  - split; [intros [] | congruence].
  - destruct (str_eqb k' k) eqn:E.
    + apply str_eqb_eq in E. split; [discriminate | now left].
    + apply str_eqb_neq in E. rewrite <- IH. split; [intros [? | ?] | ]; tauto.
Qed.

Lemma dict_get_not_In (A : Type) (d : list (str * A)) (k : str) :
  ~ In k (dict_keys d) <-> dict_get d k = None.
Proof.
  rewrite dict_get_In. destruct (dict_get d k); intuition congruence.
Qed.

Lemma dict_get_set_same (A : Type) (d : list (str * A)) (k : str) (v : A) :
  dict_get (dict_set d k v) k = Some v.
Proof.
  induction d as [| [k' v'] d IH]; simpl.
  - now rewrite str_eqb_refl.
  - destruct (str_eqb k' k) eqn:E; simpl; now rewrite E.
Qed.

Lemma dict_get_set_other (A : Type) (d : list (str * A)) (k k0 : str) (v : A) :
  k0 <> k -> dict_get (dict_set d k v) k0 = dict_get d k0.
Proof.
  intros Hne. induction d as [| [k' v'] d IH]; simpl.
  - apply str_eqb_neq in Hne.
    destruct (str_eqb k k0) eqn:E; [| reflexivity].
    apply str_eqb_eq in E. apply str_eqb_neq in Hne. congruence.
  - destruct (str_eqb k' k) eqn:E; simpl.
    + apply str_eqb_eq in E. subst k'.
      destruct (str_eqb k k0) eqn:E0; [| reflexivity].
      apply str_eqb_eq in E0. congruence.
    + now rewrite IH.
Qed.

Lemma dict_keys_set_present (A : Type) (d : list (str * A)) (k : str) (v : A) :
  In k (dict_keys d) -> dict_keys (dict_set d k v) = dict_keys d.
Proof.
  induction d as [| [k' v'] d IH]; simpl; [intros [] |].
  destruct (str_eqb k' k) eqn:E; simpl; [reflexivity |].
  apply str_eqb_neq in E. intros [? | H]; [congruence |].
  now rewrite IH.
Qed.

(** ** Dataclasses *)

Lemma is_field_In (c : dataclass) (k : str) :
  is_field c k = true <-> In k (field_names c).
Proof.
  unfold is_field, field_names. rewrite existsb_exists, in_map_iff.
  split; intros [f [H1 H2]]; exists f.
  - apply str_eqb_eq in H2. tauto.
  - split; [tauto |]. apply str_eqb_eq. tauto.
Qed.

Lemma required_names_In (c : dataclass) (k : str) :
  In k (required_names c)
  <-> exists f, In f (cls_fields c) /\ f_name f = k /\ f_default f = None.
Proof.
  unfold required_names. rewrite in_map_iff. split.
  - intros [f [Hn Hf]]. apply filter_In in Hf as [Hin Hd].
    exists f. destruct (f_default f); [discriminate | tauto].
  - intros [f [Hin [Hn Hd]]]. exists f. split; [tauto |].
    apply filter_In. rewrite Hd. tauto.
Qed.

Lemma mapM_field_value_missing (kw : dict) (fs : list field) (f : field) :
  In f fs -> f_default f = None -> dict_get kw (f_name f) = None ->
  mapM (field_value kw) fs = Raise TypeError.
Proof.
  intros Hin Hd Hk.
  induction fs as [| f0 fs IH]; simpl; [destruct Hin |].
  unfold field_value at 1.
  destruct Hin as [-> | Hin].
  - now rewrite Hk, Hd.
  - rewrite (IH Hin).
    destruct (dict_get kw (f_name f0)); [reflexivity |].
    destruct (f_default f0); reflexivity.
Qed.

Lemma mapM_field_value_ok (kw : dict) (fs : list field) :
  (forall f, In f fs -> f_default f = None -> dict_get kw (f_name f) <> None) ->
  exists attrs,
    mapM (field_value kw) fs = Ok attrs
    /\ map fst attrs = map f_name fs
    /\ forall k v, dict_get kw k = Some v -> In k (map f_name fs) ->
                   dict_get attrs k = Some v.
Proof.
  induction fs as [| f0 fs IH]; intros H; simpl.
  - exists []. repeat split. intros k v _ [].
  - destruct IH as [attrs [E [Hn Hv]]]; [intros; apply H; simpl; tauto |].
    rewrite E. unfold field_value.
    destruct (dict_get kw (f_name f0)) as [v0 |] eqn:E0.
    + exists ((f_name f0, v0) :: attrs). repeat split; simpl; [congruence |].
      intros k v Hk [<- | Hin].
      * rewrite str_eqb_refl. congruence.
      * destruct (str_eqb (f_name f0) k) eqn:Ek; [| now apply Hv].
        apply str_eqb_eq in Ek. congruence.
    + destruct (f_default f0) as [v0 |] eqn:Ed.
      * exists ((f_name f0, v0) :: attrs). repeat split; simpl; [congruence |].
        intros k v Hk [<- | Hin]; [congruence |].
        destruct (str_eqb (f_name f0) k) eqn:Ek; [| now apply Hv].
        apply str_eqb_eq in Ek. congruence.
      * exfalso. apply (H f0); simpl; tauto.
Qed.

Lemma construct_unexpected (c : dataclass) (kw : dict) (k : str) :
  In k (dict_keys kw) -> ~ In k (field_names c) ->
  construct c (PDict kw) = Raise TypeError.
Proof.
  intros Hin Hnot. unfold construct, dataclass_init.
  destruct (forallb (is_field c) (dict_keys kw)) eqn:E; [| reflexivity].
  rewrite forallb_forall in E. apply E, is_field_In in Hin. contradiction.
Qed.

Lemma construct_missing (c : dataclass) (kw : dict) (k : str) :
  In k (required_names c) -> ~ In k (dict_keys kw) ->
  construct c (PDict kw) = Raise TypeError.
Proof.
  intros Hreq Hnot. unfold construct, dataclass_init.
  destruct (forallb (is_field c) (dict_keys kw)); [| reflexivity].
  apply required_names_In in Hreq as [f [Hin [<- Hd]]].
  apply dict_get_not_In in Hnot.
  now rewrite (mapM_field_value_missing Hin Hd Hnot).
Qed.

Lemma construct_accepted (c : dataclass) (kw : dict) :
  (forall k, In k (dict_keys kw) -> In k (field_names c)) ->
  (forall k, In k (required_names c) -> In k (dict_keys kw)) ->
  exists attrs,
    construct c (PDict kw) = Ok (PObj (cls_name c) attrs)
    /\ map fst attrs = field_names c
    /\ forall k v, dict_get kw k = Some v -> dict_get attrs k = Some v.
Proof.
  intros Hkeys Hreq. unfold construct, dataclass_init.
  replace (forallb (is_field c) (dict_keys kw)) with true.
  2:{ symmetry. apply forallb_forall. intros k Hk. now apply is_field_In, Hkeys. }
  destruct (@mapM_field_value_ok kw (cls_fields c)) as [attrs [E [Hn Hv]]].
  { intros f Hin Hd. apply dict_get_In, Hreq, required_names_In. now exists f. }
  rewrite E. exists attrs. repeat split; [exact Hn |].
  intros k v Hk. apply Hv; [exact Hk |].
  apply Hkeys, dict_get_In. congruence.
Qed.

Lemma construct_not_mapping (c : dataclass) (data : pyval) :
  (forall kw, data <> PDict kw) -> construct c data = Raise TypeError.
Proof. destruct data; intros H; try reflexivity. now destruct (H entries). Qed.


Lemma construct_strict_on_keys (c : dataclass) (kw : dict) :
  strict_on_keys c kw (construct c (PDict kw)).
Proof.
  repeat split.
  - intros [k [H1 H2]]. now apply construct_unexpected with k.
  - intros [k [H1 H2]]. now apply construct_missing with k.
  - intros [H1 H2]. destruct (construct_accepted H1 H2) as [attrs [E _]].
    now exists attrs.
Qed.

Lemma mapM_Forall2 (A B : Type) (f : A -> result B) (l : list A) (l' : list B) :
  mapM f l = Ok l' <-> Forall2 (fun a b => f a = Ok b) l l'.
Proof.
  revert l'. induction l as [| a l IH]; intros l'; simpl.
  - split.
    + intros [= <-]. constructor.
    + intros H. inversion H. reflexivity.
  - split.
    + destruct (f a) as [b |] eqn:E; [| discriminate].
      destruct (mapM f l) as [bs |]; [| discriminate].
      intros [= <-]. constructor; [exact E | now apply IH].
    + intros H. inversion H as [| a0 b l0 bs Hab Hrest]; subst.
      rewrite Hab. apply IH in Hrest. now rewrite Hrest.
Qed.

Lemma construct_entry_hydrated (entry obj : pyval) :
  construct OrderbookEntry entry = Ok obj -> hydrated entry obj.
Proof.
  destruct entry as [| | | | | | d |]; try discriminate.
  unfold construct, dataclass_init.
  destruct (forallb _ _); [| discriminate].
  cbn. unfold field_value. cbn.
  destruct (dict_get d (lit "price")) as [p |] eqn:Hp; [| discriminate].
  destruct (dict_get d (lit "amount")) as [a |] eqn:Ha; [| discriminate].
  intros [= <-]. now exists d, p, a.
Qed.

(** ** The endpoints *)

(** An operation that maps the answer of one request has the events of that
    request. *)
Ltac one_request :=
  match goal with
  | |- events (io_bind _ (fun a => lift _)) = _ =>
      rewrite events_bind_lift; apply request_events
  end.

Section Endpoints.

Variable net : Session -> str -> str -> dict -> result Response.
Variable self : RapidWireClient.

Lemma stdout_app (t u : list event) : stdout (t ++ u) = (stdout t ++ stdout u)%list.
Proof.
  induction t as [| [s m u' k | line] t IH]; simpl; [reflexivity | exact IH |].
  now rewrite IH.
Qed.


(** C4, as the code has it.  A mapping into a flat record fails with a
    [TypeError] when the object has a key that is no field of the class, and
    when it lacks a field that has no default; it succeeds when neither is
    the case.  So do [get_balance] and [get_currency_info]. *)
Theorem mapping_strict_on_keys :
  (forall c kw, strict_on_keys c kw (construct c (PDict kw)))
  /\ (forall kw,
         outcome (_request net self (lit "GET") (lit "/account/balance") [])
         = Ok (PDict kw) ->
         strict_on_keys Balance kw (outcome (get_balance net self)))
  /\ (forall symbol kw,
         outcome (_request net self (lit "GET")
                    (lit "/currency/" ++ upper symbol) [])
         = Ok (PDict kw) ->
         strict_on_keys CurrencyInfo kw
           (outcome (get_currency_info net self symbol))).
Proof.
  repeat apply conj.
  - intros c kw. apply construct_strict_on_keys.
  - intros kw H. unfold get_balance.
    rewrite outcome_bind_lift, H. apply construct_strict_on_keys.
  - intros symbol kw H. unfold get_currency_info.
    rewrite outcome_bind_lift, H. apply construct_strict_on_keys.
Qed.

Lemma orderbook_outcome (symbol : str) (kw : dict) (entries : list pyval) :
  outcome (_request net self (lit "GET")
             (lit "/stock/" ++ upper symbol ++ lit "/orderbook") [])
  = Ok (PDict kw) ->
  dict_get kw (lit "orders") = Some (PList entries) ->
  outcome (get_stock_orderbook net self symbol)
  = match mapM (construct OrderbookEntry) entries with
    | Ok objs =>
        construct Orderbook
          (PDict (dict_set kw (lit "orders") (PList objs)))
    | Raise e => Raise e
    end.
Proof.
  intros H Horders. unfold get_stock_orderbook.
  rewrite outcome_bind, H. cbn [rbind].
  rewrite outcome_bind_lift. unfold hydrate, construct_each, getitem, py_iter.
  rewrite Horders.
  destruct (mapM (construct OrderbookEntry) entries); reflexivity.
Qed.

(** C7. For an orderbook response whose [orders] is an array: when the call
    returns, the [orders] of the result are the entries of the array
    hydrated one by one, as many and in the same order; and the call does
    return when every entry can be hydrated and the keys of the object are
    those of an orderbook. *)
Theorem orderbook_keeps_order (symbol : str) (kw : dict) (entries : list pyval) :
  outcome (_request net self (lit "GET")
             (lit "/stock/" ++ upper symbol ++ lit "/orderbook") [])
  = Ok (PDict kw) ->
  dict_get kw (lit "orders") = Some (PList entries) ->
  (forall ob,
      outcome (get_stock_orderbook net self symbol) = Ok ob ->
      exists objs,
        getattr ob (lit "orders") = Ok (PList objs)
        /\ Forall2 hydrated entries objs)
  /\ (forall objs name,
         Forall2 (fun e o => construct OrderbookEntry e = Ok o) entries objs ->
         dict_get kw (lit "stock_symbol") = Some name ->
         (forall k, In k (dict_keys kw) -> In k (field_names Orderbook)) ->
         outcome (get_stock_orderbook net self symbol)
         = Ok (PObj (lit "Orderbook")
                 [(lit "stock_symbol", name); (lit "orders", PList objs)])).
Proof.
  intros H Horders. rewrite (orderbook_outcome H Horders).
  assert (Hin : In (lit "orders") (dict_keys kw))
    by (apply dict_get_In; congruence).
  split.
  - intros ob.
    destruct (mapM (construct OrderbookEntry) entries) as [objs |] eqn:E;
      [| discriminate].
    unfold construct, dataclass_init.
    destruct (forallb _ _); [| discriminate].
    cbn. unfold field_value. cbn.
    rewrite dict_get_set_same.
    destruct (dict_get _ (lit "stock_symbol")); [| discriminate].
    intros [= <-]. exists objs. split; [reflexivity |].
    apply mapM_Forall2 in E.
    eapply Forall2_impl; [| exact E]. apply construct_entry_hydrated.
  - intros objs name Hall Hname Hkeys.
    apply mapM_Forall2 in Hall. rewrite Hall.
    unfold construct, dataclass_init.
    rewrite (dict_keys_set_present _ Hin).
    replace (forallb (is_field Orderbook) (dict_keys kw)) with true.
    2:{ symmetry. apply forallb_forall. intros k Hk. now apply is_field_In, Hkeys. }
    cbn. unfold field_value. cbn.
    rewrite dict_get_set_same, dict_get_set_other, Hname by discriminate.
    reflexivity.
Qed.

(** C9. Uppercasing is idempotent and turns every lowercase ASCII letter
    into its capital; and each operation that takes a symbol hands the
    session one request, in which the symbol stands uppercased, in the path
    or in the JSON payload. *)
Theorem symbols_leave_uppercased :
  (forall s, upper (upper s) = upper s)
  /\ (forall s1 c s2,
         is_ascii_lower c = true ->
         upper (s1 ++ c :: s2) = upper s1 ++ (c - 32)%N :: upper s2)
  /\ (forall s,
         events (get_currency_info net self s)
         = [Sent (_session self) (lit "GET")
              (base_url self ++ lit "/currency/" ++ upper s) []])
  /\ (forall s,
         events (get_stock_info net self s)
         = [Sent (_session self) (lit "GET")
              (base_url self ++ lit "/stock/" ++ upper s) []])
  /\ (forall s,
         events (get_stock_orderbook net self s)
         = [Sent (_session self) (lit "GET")
              (base_url self ++ lit "/stock/" ++ upper s ++ lit "/orderbook")
              []])
  /\ (forall s,
         events (get_liquidity_info net self s)
         = [Sent (_session self) (lit "GET")
              (base_url self ++ lit "/market/currency/liquidity/" ++ upper s)
              []])
  /\ (forall recipient s amount,
         events (transfer_currency net self recipient s amount)
         = [Sent (_session self) (lit "POST")
              (base_url self ++ lit "/currency/transfer")
              [(lit "json",
                PDict [ (lit "recipient_id", PInt recipient);
                        (lit "asset_symbol", PStr (upper s));
                        (lit "amount", PInt amount) ])]])
  /\ (forall recipient s amount,
         events (transfer_stock net self recipient s amount)
         = [Sent (_session self) (lit "POST")
              (base_url self ++ lit "/stock/transfer")
              [(lit "json",
                PDict [ (lit "recipient_id", PInt recipient);
                        (lit "asset_symbol", PStr (upper s));
                        (lit "amount", PInt amount) ])]])
  /\ (forall s price amount,
         events (create_sell_order net self s price amount)
         = [Sent (_session self) (lit "POST")
              (base_url self ++ lit "/market/stock/sell-order")
              [(lit "json",
                PDict [ (lit "stock_symbol", PStr (upper s));
                        (lit "price", PInt price);
                        (lit "amount", PInt amount) ])]])
  /\ (forall s amount,
         events (market_buy_stock net self s amount)
         = [Sent (_session self) (lit "POST")
              (base_url self ++ lit "/market/stock/market-buy")
              [(lit "json",
                PDict [ (lit "stock_symbol", PStr (upper s));
                        (lit "amount", PInt amount) ])]])
  /\ (forall s amount,
         events (buy_currency net self s amount)
         = [Sent (_session self) (lit "POST")
              (base_url self ++ lit "/market/currency/buy")
              [(lit "json",
                PDict [ (lit "currency_symbol", PStr (upper s));
                        (lit "amount", PInt amount) ])]])
  /\ (forall s amount,
         events (sell_currency net self s amount)
         = [Sent (_session self) (lit "POST")
              (base_url self ++ lit "/market/currency/sell")
              [(lit "json",
                PDict [ (lit "currency_symbol", PStr (upper s));
                        (lit "amount", PInt amount) ])]]).
Proof.
  split; [exact upper_idempotent |].
  split; [exact upper_ascii_lower |].
  repeat apply conj; intros;
    unfold get_currency_info, get_stock_info, get_stock_orderbook,
      get_liquidity_info, transfer_currency, transfer_stock,
      create_sell_order, market_buy_stock, buy_currency, sell_currency.
  1-2, 4-10: one_request.
  unfold io_bind at 1.
  pose proof (request_events net self (lit "GET")
                (lit "/stock/" ++ upper s ++ lit "/orderbook") []) as E.
  destruct (_request _ _ _ _ _) as [t [data | e]]; unfold events in *;
    simpl in *; [| exact E].
  unfold lift, io_bind.
  destruct (hydrate _ _ _); simpl; subst t; reflexivity.
Qed.

End Endpoints.

(** ** Construction *)

Lemma print_written (write : str -> result unit) (line : str) :
  write line = Ok tt -> print write line = ([Printed line], Ok tt).
Proof. intros H. unfold print. now rewrite H. Qed.

Lemma print_failed (write : str -> result unit) (line : str) (e : exn) :
  write line = Raise e -> print write line = ([], Raise e).
Proof. intros H. unfold print. now rewrite H. Qed.

Section Construction.

Variable net : Session -> str -> str -> dict -> result Response.
Variable fmt : pyval -> str.
Variable out : str -> result unit.
Variables (api_key url : str).

Local Abbreviation self := (client_of api_key url).

Lemma get_version_events :
  events (get_version net self)
  = [Sent (_session self) (lit "GET") (base_url self ++ lit "/version") []].
Proof. unfold get_version. one_request. Qed.

Lemma init_with_key :
  api_key <> [] ->
  __init__ net fmt out api_key url
  = io_bind (_check_version net fmt out self) (fun _ => io_ret self).
Proof. intros H. unfold __init__. destruct api_key; [easy | reflexivity]. Qed.

Lemma truthy_str (v : str) : v <> [] -> truthy (PStr v) = true.
Proof. destruct v; [easy | reflexivity]. Qed.

(** The version check on a version string that is not empty: the comparison
    and, when the majors differ, the warning. *)
Lemma check_version_compared (t : list event) (resp details : pyval) (v : str) :
  get_version net self = (t, Ok resp) ->
  getattr resp (lit "details") = Ok details ->
  call_get details (lit "version") PNone = Ok (PStr v) ->
  v <> [] ->
  _check_version net fmt out self
  = try_except
      (io_bind (t, Ok tt)
         (fun _ =>
            if str_eqb (leading_component CLIENT_VERSION) (leading_component v)
            then io_ret tt
            else print out (warning_mismatch CLIENT_VERSION v)))
      is_RapidWireAPIError
      (fun e => print out (warning_unreachable (exn_str fmt e))).
Proof.
  intros Hv Hd Hs Hne. unfold _check_version. rewrite Hv.
  cbn [io_bind lift]. rewrite Hd.
  cbn [io_bind lift]. rewrite Hs, (truthy_str Hne).
  cbn [negb io_bind lift]. rewrite split_first.
  cbn [io_bind lift call_split]. rewrite split_first.
  cbn [io_bind lift format_value].
  destruct (str_eqb _ _); cbn [negb];
    [| destruct (print out _) as [t' r]]; now rewrite ?app_nil_r.
Qed.


(** When the majors differ and standard output raises on the warning, the
    exception leaves the constructor and nothing is printed. *)
Lemma init_raises_when_mismatch_unwritable (resp details : pyval) (v : str)
  (e : exn) :
  api_key <> [] ->
  outcome (get_version net self) = Ok resp ->
  getattr resp (lit "details") = Ok details ->
  call_get details (lit "version") PNone = Ok (PStr v) ->
  v <> [] ->
  leading_component CLIENT_VERSION <> leading_component v ->
  out (warning_mismatch CLIENT_VERSION v) = Raise e ->
  is_RapidWireAPIError e = false ->
  outcome (__init__ net fmt out api_key url) = Raise e
  /\ stdout (events (__init__ net fmt out api_key url)) = [].
Proof.
  intros Hkey Hv Hd Hs Hne Hdiff Hout Hexn.
  pose proof get_version_events as Ht.
  destruct (get_version net self) as [t r] eqn:E.
  unfold outcome, events in Hv, Ht. simpl in Hv, Ht. subst r t.
  rewrite (init_with_key Hkey), (check_version_compared E Hd Hs Hne).
  apply str_eqb_neq in Hdiff. rewrite Hdiff, (print_failed Hout).
  cbn. rewrite Hexn. split; reflexivity.
Qed.

(** What the version check does catch: an error of the client raised by the
    version call.  The handler prints one warning; construction returns the
    client when standard output takes the line, and raises what standard
    output raises when it does not. *)
Lemma init_survives_api_error (status : Z) (detail : pyval) :
  api_key <> [] ->
  outcome (get_version net self) = Raise (RapidWireAPIError status detail) ->
  (out (warning_unreachable (message fmt status detail)) = Ok tt ->
   outcome (__init__ net fmt out api_key url) = Ok self
   /\ stdout (events (__init__ net fmt out api_key url))
      = [warning_unreachable (message fmt status detail)])
  /\ (forall e,
         out (warning_unreachable (message fmt status detail)) = Raise e ->
         outcome (__init__ net fmt out api_key url) = Raise e
         /\ stdout (events (__init__ net fmt out api_key url)) = []).
Proof.
  intros Hkey Hv.
  pose proof get_version_events as Ht.
  destruct (get_version net self) as [t r] eqn:E.
  unfold outcome, events in Hv, Ht. simpl in Hv, Ht. subst r t.
  rewrite (init_with_key Hkey). unfold _check_version. rewrite E.
  cbn [io_bind try_except is_RapidWireAPIError exn_str]. split.
  - intros Hout. rewrite (print_written Hout). split; reflexivity.
  - intros e Hout. rewrite (print_failed Hout). split; reflexivity.
Qed.

(** X20. A transport failure on the version call is caught, and the handler
    prints one warning, which holds the message of the error raised for the
    failure.  When standard output takes the line, construction has printed
    that line and nothing else, and returns the client; when standard output
    raises on it, construction raises that exception. *)
Lemma init_survives_transport_failure (failure : str) :
  api_key <> [] ->
  net (_session self) (lit "GET") (base_url self ++ lit "/version") []
  = Raise (RequestException failure) ->
  (out (warning_unreachable
          (message fmt 500 (PStr (lit "Request failed: " ++ failure))))
   = Ok tt ->
   outcome (__init__ net fmt out api_key url) = Ok self
   /\ stdout (events (__init__ net fmt out api_key url))
      = [warning_unreachable
           (message fmt 500 (PStr (lit "Request failed: " ++ failure)))])
  /\ (forall e,
         out (warning_unreachable
                (message fmt 500 (PStr (lit "Request failed: " ++ failure))))
         = Raise e ->
         outcome (__init__ net fmt out api_key url) = Raise e).
Proof.
  intros Hkey H.
  assert (Hv : outcome (get_version net self)
               = Raise (RapidWireAPIError 500
                          (PStr (lit "Request failed: " ++ failure)))).
  { unfold get_version. rewrite outcome_bind_lift, (request_raised H).
    reflexivity. }
  destruct (init_survives_api_error Hkey Hv) as [Hwritten Hfailed].
  split; [exact Hwritten |]. intros e He. exact (proj1 (Hfailed e He)).
Qed.

(** X21. When the details of the answer hold no version, or one that is
    false (the empty string, [null], zero), construction prints the warning
    that the version is unknown.  When standard output takes the line,
    construction has printed that line and nothing else, and returns the
    client; when standard output raises on it an exception that is no error
    of the client, construction raises that exception. *)
Lemma init_survives_unknown_version (resp details version : pyval) :
  api_key <> [] ->
  outcome (get_version net self) = Ok resp ->
  getattr resp (lit "details") = Ok details ->
  call_get details (lit "version") PNone = Ok version ->
  truthy version = false ->
  (out warning_unknown = Ok tt ->
   outcome (__init__ net fmt out api_key url) = Ok self
   /\ stdout (events (__init__ net fmt out api_key url)) = [warning_unknown])
  /\ (forall e,
         out warning_unknown = Raise e ->
         is_RapidWireAPIError e = false ->
         outcome (__init__ net fmt out api_key url) = Raise e).
Proof.
  intros Hkey Hv Hd Hs Hfalse.
  pose proof get_version_events as Ht.
  destruct (get_version net self) as [t r] eqn:E.
  unfold outcome, events in Hv, Ht. simpl in Hv, Ht. subst r t.
  rewrite (init_with_key Hkey). unfold _check_version. rewrite E.
  cbn [io_bind lift]. rewrite Hd.
  cbn [io_bind lift]. rewrite Hs, Hfalse. cbn [negb]. split.
  - intros Hout. rewrite (print_written Hout). split; reflexivity.
  - intros e Hout Hexn. rewrite (print_failed Hout). cbn. rewrite Hexn.
    reflexivity.
Qed.

(** What it does not catch: an answer without details leaves [details] at
    its default [None], which has no [get]; the [AttributeError] is not an
    error of the client, so construction raises it. *)
Lemma init_raises_on_absent_details (resp : pyval) :
  api_key <> [] ->
  outcome (get_version net self) = Ok resp ->
  getattr resp (lit "details") = Ok PNone ->
  outcome (__init__ net fmt out api_key url) = Raise AttributeError.
Proof.
  intros Hkey Hv Hd.
  destruct (get_version net self) as [t r] eqn:E.
  unfold outcome in Hv. simpl in Hv. subst r.
  rewrite (init_with_key Hkey). unfold _check_version. rewrite E.
  cbn [io_bind lift]. rewrite Hd. reflexivity.
Qed.

End Construction.

(** ** The claims at concrete inputs *)

Lemma request_error_detail_witness :
  outcome (_request currency_not_found bot (lit "GET") (lit "/currency/XYZ") [])
  = Raise (RapidWireAPIError 404 (PStr (lit "Currency not found"))).
Proof.
  refine (proj1
            (@request_error_detail currency_not_found bot (lit "GET")
               (lit "/currency/XYZ") []
               (received 404 (dq "{'detail': 'Currency not found'}")
                  expecting_value)
               eq_refl eq_refl)
            [(lit "detail", PStr (lit "Currency not found"))]
            (PStr (lit "Currency not found")) _ _);
    vm_compute; reflexivity.
Defined.

(** C1 as stated fails on an empty body: the body does not decode, so the
    detail is the body text, the empty string, and not "Unknown error". *)
Lemma request_error_empty_body_counterexample :
  let r := received 502 (lit "") expecting_value in
  bad_gateway_empty = answer (Ok r)
  /\ text r = lit ""
  /\ ok r = false
  /\ outcome (_request bad_gateway_empty bot (lit "GET") (lit "/version") [])
     = Raise (RapidWireAPIError 502 (PStr (lit "")))
  /\ outcome (_request bad_gateway_empty bot (lit "GET") (lit "/version") [])
     <> Raise (RapidWireAPIError 502 (PStr (lit "Unknown error"))).
Proof.
  repeat split; try (vm_compute; reflexivity).
  vm_compute. discriminate.
Qed.

(** C2 at the failing input: the version endpoint answers 200 with a
    message and no details, and construction raises, whatever standard
    output is. *)
Theorem init_raises_without_details (out : str -> result unit) :
  outcome (__init__ version_without_details format_constant out
             (lit "secret") default_base_url)
  = Raise AttributeError.
Proof. vm_compute. reflexivity. Qed.



Lemma mapping_strict_on_keys_witness :
  strict_on_keys Balance balance_scenario_object
    (outcome (get_balance balance_scenario bot)).
Proof.
  apply (proj1 (proj2 (@mapping_strict_on_keys balance_scenario bot))
           balance_scenario_object).
  vm_compute. reflexivity.
Defined.

(** C4 as stated fails on its first half: one field more than the class
    declares, and [get_balance] raises a [TypeError]; without that field the
    same answer is mapped. *)
Lemma extra_field_counterexample :
  outcome (get_balance balance_with_extra bot) = Raise TypeError
  /\ outcome (get_balance balance_scenario bot)
     = Ok (PObj (lit "Balance") balance_scenario_object).
Proof. split; vm_compute; reflexivity. Qed.

Lemma request_transport_failure_witness :
  exists detail,
    outcome (_request refused bot (lit "GET") (lit "/account/balance") [])
    = Raise (RapidWireAPIError 500 (PStr detail))
    /\ detail = lit "Request failed: " ++ lit "Connection refused"
    /\ detail <> [].
Proof.
  apply (@request_transport_failure refused bot (lit "GET")
           (lit "/account/balance") [] (lit "Connection refused")).
  reflexivity.
Defined.

Lemma request_no_content_witness :
  outcome (_request no_content bot (lit "DELETE")
             (lit "/market/stock/sell-order/7") [])
  = Ok PNone.
Proof.
  apply (@request_no_content no_content bot (lit "DELETE")
           (lit "/market/stock/sell-order/7") []
           (received 204 (dq "") expecting_value));
    reflexivity.
Defined.

Lemma orderbook_keeps_order_witness :
  outcome (get_stock_orderbook orderbook_scenario bot (lit "acme"))
  = Ok (PObj (lit "Orderbook")
          [ (lit "stock_symbol", PStr (lit "ACME"));
            (lit "orders", PList [entry_object 10 3; entry_object 11 1]) ]).
Proof.
  refine (proj2
            (@orderbook_keeps_order orderbook_scenario bot (lit "acme")
               orderbook_scenario_object orderbook_scenario_entries _ _)
            [entry_object 10 3; entry_object 11 1] (PStr (lit "ACME")) _ _ _).
  - vm_compute. reflexivity.
  - vm_compute. reflexivity.
  - repeat constructor.
  - vm_compute. reflexivity.
  - intros k Hk. vm_compute in Hk |- *. tauto.
Defined.



Lemma symbols_leave_uppercased_witness :
  upper (lit "us" ++ 100%N :: lit "t") = upper (lit "us") ++ 68%N :: upper (lit "t").
Proof.
  apply (proj1 (proj2 (@symbols_leave_uppercased refused bot))
           (lit "us") 100%N (lit "t")).
  reflexivity.
Defined.

Lemma request_undecodable_success_witness :
  outcome (_request proxy_page bot (lit "GET") (lit "/config") [])
  = Raise (RapidWireAPIError 500
             (PStr (lit "Request failed: " ++ expecting_value))).
Proof.
  apply (@request_undecodable_success proxy_page bot (lit "GET")
           (lit "/config") []
           (received 200 (dq "<html>Bad Gateway</html>") expecting_value)).
  - reflexivity.
  - simpl. lia.
  - simpl. lia.
  - vm_compute. reflexivity.
Defined.

(** The scenarios of the specification. *)

Example balance_scenario_maps :
  outcome (get_balance balance_scenario bot)
  = Ok (PObj (lit "Balance")
          [ (lit "currencies", PDict [(lit "USD", PInt 100)]);
            (lit "stocks", PDict [(lit "ACME", PInt 5)]) ]).
Proof. vm_compute. reflexivity. Qed.

Example transfer_passes_amount_through :
  events (transfer_currency refused bot 42 (lit "usd") (-5))
  = [Sent (_session bot) (lit "POST")
       (default_base_url ++ lit "/currency/transfer")
       [(lit "json",
         PDict [ (lit "recipient_id", PInt 42);
                 (lit "asset_symbol", PStr (lit "USD"));
                 (lit "amount", PInt (-5)) ])]].
Proof. vm_compute. reflexivity. Qed.

Example error_without_detail :
  outcome (_request (replies 404 "{}") bot (lit "GET") (lit "/config") [])
  = Raise (RapidWireAPIError 404 (PStr (lit "Unknown error"))).
Proof. vm_compute. reflexivity. Qed.

Example error_with_array_body :
  outcome (_request (replies 404 "[1]") bot (lit "GET") (lit "/config") [])
  = Raise AttributeError.
Proof. vm_compute. reflexivity. Qed.

Example matching_version_prints_nothing :
  __init__ (replies 200 "{'message': 'ok', 'details': {'version': '1.4.2'}}")
    format_constant utf8_stdout (lit "secret") (lit "http://127.0.0.1:14550/")
  = ([Sent (_session bot) (lit "GET") (lit "http://127.0.0.1:14550/version") []],
     Ok bot).
Proof. vm_compute. reflexivity. Qed.

Example empty_key_is_refused :
  exists message,
    __init__ refused format_constant utf8_stdout (lit "") default_base_url
    = ([], Raise (ValueError message)).
Proof. eexists. reflexivity. Qed.

(** * Further properties of the client *)

(** ** Every operation, at once *)

Lemma events_bind_silent (A B : Type) (m : io A) (k : A -> io B) :
  (forall a, events (k a) = []) -> events (io_bind m k) = events m.
Proof.
  intros H. destruct m as [t [a | e]]; simpl; [| reflexivity].
  specialize (H a). unfold events in *. destruct (k a) as [t' r]. simpl in *.
  subst t'. apply app_nil_r.
Qed.

Lemma construct_raises_type_error (c : dataclass) (data : pyval) (e : exn) :
  construct c data = Raise e -> e = TypeError.
Proof.
  destruct data; simpl; try (intros [= <-]; reflexivity).
  unfold dataclass_init. destruct (forallb _ _); [| intros [= <-]; reflexivity].
  destruct (mapM (field_value entries) (cls_fields c)) as [attrs | e'] eqn:E;
    [discriminate |].
  intros [= <-]. clear -E. revert e' E.
  induction (cls_fields c) as [| f fs IH]; simpl; [discriminate |].
  intros e'. unfold field_value at 1.
  destruct (dict_get entries (f_name f)).
  - destruct (mapM _ fs); [discriminate |]. intros [= <-]. now apply IH.
  - destruct (f_default f).
    + destruct (mapM _ fs); [discriminate |]. intros [= <-]. now apply IH.
    + intros [= <-]. reflexivity.
Qed.

Lemma mapM_fst_names (kw : dict) (fs : list field) (attrs : dict) :
  mapM (field_value kw) fs = Ok attrs -> map fst attrs = map f_name fs.
Proof.
  revert attrs. induction fs as [| f fs IH]; simpl; intros attrs.
  - intros [= <-]. reflexivity.
  - destruct (field_value kw f) as [[k v] |] eqn:E; [| discriminate].
    destruct (mapM _ fs) as [rest |]; [| discriminate].
    intros [= <-]. simpl. rewrite (IH rest eq_refl). f_equal.
    unfold field_value in E.
    destruct (dict_get kw (f_name f)); [now inversion E |].
    destruct (f_default f); [now inversion E | discriminate].
Qed.

Lemma construct_is_instance (c : dataclass) (data v : pyval) :
  construct c data = Ok v -> is_instance c v.
Proof.
  destruct data; try discriminate. simpl. unfold dataclass_init.
  destruct (forallb _ _); [| discriminate].
  destruct (mapM _ _) as [attrs |] eqn:E; [| discriminate].
  intros [= <-]. exists attrs. split; [reflexivity |].
  now apply mapM_fst_names with entries.
Qed.

Lemma mapM_raises (A B : Type) (f : A -> result B) (P : exn -> Prop)
  (l : list A) (e : exn) :
  (forall a e', f a = Raise e' -> P e') -> mapM f l = Raise e -> P e.
Proof.
  intros H. induction l as [| a l IH]; simpl; [discriminate |].
  destruct (f a) eqn:E.
  - destruct (mapM f l); [discriminate |]. intros [= <-]. now apply IH.
  - intros [= <-]. now apply H with a.
Qed.

Lemma construct_each_raises_type_error (c : dataclass) (data : pyval) (e : exn) :
  construct_each c data = Raise e -> e = TypeError.
Proof.
  unfold construct_each.
  destruct (py_iter data) as [items | e'] eqn:E.
  - destruct (mapM (construct c) items) eqn:E'; [discriminate |].
    intros [= <-].
    apply mapM_raises
      with (f := construct c) (P := fun x => x = TypeError) (l := items);
      [| exact E'].
    intros a e'. apply construct_raises_type_error.
  - intros [= <-]. destruct data; simpl in E; congruence.
Qed.

Lemma construct_each_instances (c : dataclass) (data v : pyval) :
  construct_each c data = Ok v ->
  exists objs, v = PList objs /\ Forall (is_instance c) objs.
Proof.
  unfold construct_each.
  destruct (py_iter data) as [items |]; [| discriminate].
  destruct (mapM (construct c) items) as [objs |] eqn:E; [| discriminate].
  intros [= <-]. exists objs. split; [reflexivity |].
  apply mapM_Forall2 in E. clear -E.
  induction E; constructor; [| assumption].
  now apply construct_is_instance with x.
Qed.

Lemma hydrate_raises (data : pyval) (key : str) (f : pyval -> result pyval)
  (e : exn) :
  (forall x e', f x = Raise e' -> e' = TypeError) ->
  hydrate data key f = Raise e -> e = TypeError \/ e = KeyError key.
Proof.
  intros Hf. unfold hydrate.
  destruct data; simpl; try (intros [= <-]; now left).
  destruct (dict_get entries key) as [raw |].
  - destruct (f raw) eqn:E; [discriminate |]. intros [= <-]. left. eauto.
  - intros [= <-]. now right.
Qed.

Section Operations.

Variable net : Session -> str -> str -> dict -> result Response.
Variable self : RapidWireClient.

Lemma io_bind_lift_ok (A B : Type) (a : A) (k : A -> io B) :
  io_bind (lift (Ok a)) k = k a.
Proof. unfold io_bind, lift. now destruct (k a). Qed.

(** The 4300-digit limit, the only way [format_int] fails. *)
Lemma format_int_raises (n : Z) (e : exn) :
  format_int n = Raise e
  <-> (10 ^ int_max_str_digits <= Z.abs n)%Z
      /\ e = ValueError int_str_limit_message.
Proof.
  unfold format_int.
  destruct (Z.leb_spec (10 ^ int_max_str_digits) (Z.abs n)) as [Hle | Hlt].
  - split; [intros [= <-]; now split | now intros [_ ->]].
  - split; [discriminate | intros [Hle _]].
    now apply Z.lt_nge in Hlt.
Qed.

Lemma cancel_sell_order_formatted (i : Z) :
  cancel_sell_order net self i
  = match format_int i with
    | Ok id =>
        io_bind
          (_request net self (lit "DELETE")
             (lit "/market/stock/sell-order/" ++ id) [])
          (fun data => lift (construct SuccessResponse data))
    | Raise e => ([], Raise e)
    end.
Proof.
  unfold cancel_sell_order.
  destruct (format_int i); [apply io_bind_lift_ok | reflexivity].
Qed.

Lemma perform_events (o : operation) (q : request) :
  request_of o = Ok q ->
  events (perform net self o)
  = [Sent (_session self) (req_method q) (base_url self ++ req_endpoint q)
       (req_kwargs q)].
Proof.
  destruct o as [ | | | ? | | ? | ? | ? ? ? | ? ? ? | ? | ? ? ? | ? ? | i | ?
                | ? ? | ? ? ].
  13:{ cbn [request_of perform]. rewrite cancel_sell_order_formatted.
       destruct (format_int i) as [id |]; [| discriminate].
       intros [= <-]. cbn [req_method req_endpoint req_kwargs].
       rewrite events_bind_silent; [apply request_events | reflexivity]. }
  all: cbn [request_of]; intros [= <-]; simpl;
    unfold get_version, get_config, get_balance, get_history,
      get_my_stock_orders, get_currency_info, get_stock_info,
      transfer_currency, transfer_stock, get_stock_orderbook,
      create_sell_order, market_buy_stock,
      get_liquidity_info, buy_currency, sell_currency;
    (rewrite events_bind_silent; [apply request_events |]);
    intros a; try reflexivity.
  all: unfold io_bind, lift; destruct (hydrate _ _ _); reflexivity.
Qed.

Lemma perform_without_request (o : operation) (e : exn) :
  request_of o = Raise e -> perform net self o = ([], Raise e).
Proof.
  destruct o; try discriminate.
  cbn [request_of perform]. rewrite cancel_sell_order_formatted.
  destruct (format_int order_id); [discriminate | now intros [= <-]].
Qed.

Lemma request_of_raises (o : operation) (e : exn) :
  request_of o = Raise e
  <-> exists i,
      o = CancelSellOrder i
      /\ (10 ^ int_max_str_digits <= Z.abs i)%Z
      /\ e = ValueError int_str_limit_message.
Proof.
  split.
  - destruct o; try discriminate. cbn [request_of].
    destruct (format_int order_id) eqn:E; [discriminate |].
    intros [= <-]. exists order_id. split; [reflexivity |].
    now apply format_int_raises.
  - intros [i [-> H]]. apply format_int_raises in H.
    cbn [request_of]. now rewrite H.
Qed.

Lemma perform_outcome (o : operation) :
  outcome (perform net self o)
  = rbind (request_outcome net self o) (mapping o).
Proof.
  unfold request_outcome.
  destruct o as [ | | | ? | | ? | ? | ? ? ? | ? ? ? | ? | ? ? ? | ? ? | i | ?
                | ? ? | ? ? ].
  13:{ cbn [request_of perform mapping result_class].
       rewrite cancel_sell_order_formatted.
       destruct (format_int i) as [id |]; [| reflexivity].
       cbn [req_method req_endpoint req_kwargs]. rewrite outcome_bind.
       destruct (outcome (_request _ _ _ _ _)); reflexivity. }
  all: simpl;
    unfold get_version, get_config, get_balance, get_history,
      get_my_stock_orders, get_currency_info, get_stock_info,
      transfer_currency, transfer_stock, get_stock_orderbook,
      create_sell_order, market_buy_stock,
      get_liquidity_info, buy_currency, sell_currency;
    rewrite outcome_bind;
    destruct (outcome (_request _ _ _ _ _)) as [data | e]; simpl;
      try reflexivity.
  all: unfold outcome, io_bind, lift; destruct (hydrate _ _ _); reflexivity.
Qed.

(** X1. An operation hands the session exactly one request, the one its
    method, path and arguments determine, on the session of the client, and
    prints nothing, whether it then returns or raises; nothing is ever sent
    twice.  The one operation that can fail before it has a request is
    [cancel_sell_order], on an order id of more than 4300 digits, which the
    f-string of the path refuses with a [ValueError]: then nothing is sent
    at all. *)
Theorem operation_sends_one_request (o : operation) :
  (forall q,
      request_of o = Ok q ->
      events (perform net self o)
      = [Sent (_session self) (req_method q)
           (base_url self ++ req_endpoint q) (req_kwargs q)])
  /\ (forall e,
         request_of o = Raise e -> perform net self o = ([], Raise e))
  /\ (forall e,
         request_of o = Raise e
         <-> exists i,
             o = CancelSellOrder i
             /\ (10 ^ int_max_str_digits <= Z.abs i)%Z
             /\ e = ValueError int_str_limit_message)
  /\ stdout (events (perform net self o)) = [].
Proof.
  repeat apply conj.
  - apply perform_events.
  - apply perform_without_request.
  - apply request_of_raises.
  - destruct (request_of o) as [q | e] eqn:E.
    + now rewrite (perform_events E).
    + now rewrite (perform_without_request E).
Qed.

(** X2. An exception [_request] raises for the request of an operation is
    raised by the operation unchanged: no operation swallows, wraps or
    replaces the error of the transport layer. *)
Theorem operation_errors_propagate (o : operation) (e : exn) :
  request_outcome net self o = Raise e ->
  outcome (perform net self o) = Raise e.
Proof. intros H. now rewrite perform_outcome, H. Qed.

Lemma request_outcome_no_content (o : operation) (r : Response) :
  answer_to net self o = Ok r -> status_code r = 204%Z ->
  request_outcome net self o = Ok PNone.
Proof.
  intros H H204. unfold request_outcome, answer_to in *.
  destruct (request_of o) as [q |]; [| discriminate].
  rewrite (request_success H (status_204_ok H204)), H204. reflexivity.
Qed.

(** X3. An answer with status 204 to any operation makes the operation
    raise a [TypeError]: [_request] returns [None], and no record can be
    built from it. *)
Theorem no_content_fails_every_mapping (o : operation) (r : Response) :
  answer_to net self o = Ok r ->
  status_code r = 204%Z ->
  outcome (perform net self o) = Raise TypeError.
Proof.
  intros H H204.
  rewrite perform_outcome, (request_outcome_no_content H H204).
  destruct o; reflexivity.
Qed.

Lemma mapping_instance (o : operation) (data v : pyval) :
  mapping o data = Ok v ->
  if returns_list o
  then exists objs, v = PList objs /\ Forall (is_instance (result_class o)) objs
  else is_instance (result_class o) v.
Proof.
  destruct o; simpl;
    try apply construct_is_instance; try apply construct_each_instances.
  - destruct (hydrate data _ _); simpl; [apply construct_is_instance | discriminate].
  - destruct (hydrate data _ _); simpl; [apply construct_is_instance | discriminate].
Qed.

(** X4. When an operation returns, what it returns is an object of the
    class it declares, with exactly the declared fields as attributes, or,
    for the two listing operations, a list of such objects; never the raw
    decoded body, never [None]. *)
Theorem operation_result_is_instance (o : operation) (v : pyval) :
  outcome (perform net self o) = Ok v ->
  if returns_list o
  then exists objs, v = PList objs /\ Forall (is_instance (result_class o)) objs
  else is_instance (result_class o) v.
Proof.
  rewrite perform_outcome.
  destruct (request_outcome net self o) as [data |]; simpl; [| discriminate].
  apply mapping_instance.
Qed.

Lemma mapping_raises (o : operation) (data : pyval) (e : exn) :
  mapping o data = Raise e -> e = TypeError \/ exists k, e = KeyError k.
Proof.
  destruct o; simpl;
    try (intros H; left; revert H; apply construct_raises_type_error);
    try (intros H; left; revert H; apply construct_each_raises_type_error).
  - destruct (hydrate data _ _) eqn:E; simpl.
    + intros H. left. revert H. apply construct_raises_type_error.
    + intros [= <-]. apply hydrate_raises in E as [-> | ->]; eauto.
      intros x e'. apply construct_raises_type_error.
  - destruct (hydrate data _ _) eqn:E; simpl.
    + intros H. left. revert H. apply construct_raises_type_error.
    + intros [= <-]. apply hydrate_raises in E as [-> | ->]; eauto.
      intros x e'. apply construct_each_raises_type_error.
Qed.

(** X5. When [_request] has returned a body and the operation still
    fails, the exception is a [TypeError] or a [KeyError]: a body that does
    not fit the record is never reported as a [RapidWireAPIError]. *)
Theorem mapping_failure_is_not_api_error (o : operation) (data : pyval)
  (e : exn) :
  request_outcome net self o = Ok data ->
  outcome (perform net self o) = Raise e ->
  (e = TypeError \/ exists k, e = KeyError k)
  /\ is_RapidWireAPIError e = false.
Proof.
  intros H. rewrite perform_outcome, H. simpl. intros He.
  apply mapping_raises in He. split; [exact He |].
  destruct He as [-> | [k ->]]; reflexivity.
Qed.

(** X6. Uppercasing the symbol before the call changes nothing: the
    operation sends the same request and gives the same result. *)
Theorem caller_uppercasing_is_redundant (o : operation) :
  perform net self (with_upper_symbol o) = perform net self o.
Proof.
  destruct o; simpl; try reflexivity;
    unfold get_currency_info, get_stock_info, transfer_currency,
      transfer_stock, get_stock_orderbook, create_sell_order,
      market_buy_stock, get_liquidity_info, buy_currency, sell_currency;
    now rewrite upper_idempotent.
Qed.

(** X7. For the operations that return a [SuccessResponse]: a body with a
    message and no details gives an object whose [details] is [None], a
    body with both gives both as they are. *)
Theorem success_response_details_default (o : operation) (kw : dict)
  (m : pyval) :
  result_class o = SuccessResponse ->
  request_outcome net self o = Ok (PDict kw) ->
  dict_get kw (lit "message") = Some m ->
  (forall k, In k (dict_keys kw) -> k = lit "message" \/ k = lit "details") ->
  outcome (perform net self o)
  = Ok (PObj (lit "SuccessResponse")
          [ (lit "message", m);
            (lit "details",
             match dict_get kw (lit "details") with
             | Some d => d
             | None => PNone
             end) ]).
Proof.
  intros Hc H Hm Hkeys. rewrite perform_outcome, H.
  assert (E : mapping o (PDict kw) = construct SuccessResponse (PDict kw))
    by (destruct o; simpl in *; try reflexivity; discriminate).
  simpl. rewrite E. unfold construct, dataclass_init.
  replace (forallb (is_field SuccessResponse) (dict_keys kw)) with true.
  2:{ symmetry. apply forallb_forall. intros k Hk.
      destruct (Hkeys k Hk) as [-> | ->]; reflexivity. }
  cbn. unfold field_value. cbn. rewrite Hm.
  destruct (dict_get kw (lit "details")); reflexivity.
Qed.

(** X8. The two operations that hydrate a nested field raise a [KeyError]
    naming the field when the decoded object lacks it. *)
Theorem hydration_missing_key (kw : dict) :
  (request_outcome net self GetConfig = Ok (PDict kw) ->
   dict_get kw (lit "base_currency") = None ->
   outcome (get_config net self) = Raise (KeyError (lit "base_currency")))
  /\ (forall symbol,
         request_outcome net self (GetStockOrderbook symbol) = Ok (PDict kw) ->
         dict_get kw (lit "orders") = None ->
         outcome (get_stock_orderbook net self symbol)
         = Raise (KeyError (lit "orders"))).
Proof.
  split.
  - intros H Hk. change (get_config net self) with (perform net self GetConfig).
    rewrite perform_outcome, H. simpl. unfold hydrate, getitem.
    now rewrite Hk.
  - intros symbol H Hk.
    change (get_stock_orderbook net self symbol)
      with (perform net self (GetStockOrderbook symbol)).
    rewrite perform_outcome, H. simpl. unfold hydrate, getitem.
    now rewrite Hk.
Qed.

(** X9. [get_config] builds the nested currency first: when the nested
    object maps into a [CurrencyInfo], the result is a [Config] holding that
    object and the decimal places as received; when it does not, the whole
    call fails with a [TypeError]. *)
Theorem config_hydrates_base_currency (kw : dict) (nested places : pyval) :
  request_outcome net self GetConfig = Ok (PDict kw) ->
  dict_get kw (lit "base_currency") = Some nested ->
  dict_get kw (lit "decimal_places") = Some places ->
  (forall k, In k (dict_keys kw) -> In k (field_names Config)) ->
  (forall currency,
      construct CurrencyInfo nested = Ok currency ->
      outcome (get_config net self)
      = Ok (PObj (lit "Config")
              [ (lit "decimal_places", places);
                (lit "base_currency", currency) ]))
  /\ (forall e,
         construct CurrencyInfo nested = Raise e ->
         outcome (get_config net self) = Raise TypeError).
Proof.
  intros H Hn Hp Hkeys.
  change (get_config net self) with (perform net self GetConfig).
  rewrite perform_outcome, H. simpl. unfold hydrate, getitem. rewrite Hn.
  assert (Hin : In (lit "base_currency") (dict_keys kw))
    by (apply dict_get_In; congruence).
  split.
  - intros currency ->. simpl. unfold dataclass_init.
    rewrite (dict_keys_set_present _ Hin).
    replace (forallb (is_field Config) (dict_keys kw)) with true.
    2:{ symmetry. apply forallb_forall. intros k Hk.
        now apply is_field_In, Hkeys. }
    cbn. unfold field_value. cbn.
    rewrite dict_get_set_same, dict_get_set_other, Hp by discriminate.
    reflexivity.
  - intros e He. rewrite He. simpl.
    now rewrite (construct_raises_type_error He).
Qed.

Lemma mapM_failing_element (A B : Type) (f : A -> result B) (l : list A)
  (a : A) :
  In a l -> (forall b, f a <> Ok b) -> exists e, mapM f l = Raise e.
Proof.
  intros Hin Hfail. induction l as [| x l IH]; simpl; [destruct Hin |].
  destruct (f x) as [b | e] eqn:E; [| now exists e].
  destruct Hin as [-> | Hin]; [now destruct (Hfail b) |].
  destruct (IH Hin) as [e' ->]. now exists e'.
Qed.

(** X10. The two listing operations map the array they receive element by
    element, in order, and all or nothing: they return exactly when every
    element maps, and one element that does not makes the whole call fail
    with a [TypeError]. *)
Theorem listing_is_all_or_nothing (o : operation) (entries : list pyval) :
  returns_list o = true ->
  request_outcome net self o = Ok (PList entries) ->
  (forall v,
      outcome (perform net self o) = Ok v
      <-> exists objs,
          v = PList objs
          /\ Forall2 (fun e x => construct (result_class o) e = Ok x)
               entries objs)
  /\ (forall e,
         In e entries ->
         (forall x, construct (result_class o) e <> Ok x) ->
         outcome (perform net self o) = Raise TypeError).
Proof.
  intros Hl H. rewrite perform_outcome, H.
  assert (E : mapping o (PList entries)
              = match mapM (construct (result_class o)) entries with
                | Ok objs => Ok (PList objs)
                | Raise e => Raise e
                end)
    by (destruct o; try discriminate; reflexivity).
  simpl. rewrite E. split.
  - intros v. split.
    + destruct (mapM _ entries) as [objs |] eqn:Em; [| discriminate].
      intros [= <-]. exists objs. split; [reflexivity |].
      now apply mapM_Forall2.
    + intros [objs [-> Hall]]. apply mapM_Forall2 in Hall. now rewrite Hall.
  - intros e Hin Hfail.
    destruct (mapM_failing_element Hin Hfail) as [e' Em]. rewrite Em.
    f_equal.
    apply mapM_raises
      with (f := construct (result_class o)) (P := fun x => x = TypeError)
           (l := entries); [| exact Em].
    intros a e0. apply construct_raises_type_error.
Qed.

End Operations.

(** ** The transport, further *)

Section TransportMore.

Variable net : Session -> str -> str -> dict -> result Response.
Variables (self : RapidWireClient) (method endpoint : str) (kwargs : dict).

Lemma ok_iff (r : Response) :
  ok r = false <-> (400 <= status_code r < 600)%Z.
Proof.
  unfold ok. rewrite negb_false_iff, andb_true_iff, Z.leb_le, Z.ltb_lt.
  tauto.
Qed.

Lemma ok_true_iff (r : Response) :
  ok r = true <-> ~ (400 <= status_code r < 600)%Z.
Proof.
  rewrite <- ok_iff. destruct (ok r); split; congruence.
Qed.

(** X11. A response whose status is outside 400..599 and is not 204 is a
    success for [_request], the 1xx and 3xx families included: the decoded
    body is returned as it is. *)
Theorem request_returns_decoded_body (r : Response) (v : pyval) :
  net (_session self) method (base_url self ++ endpoint) kwargs = Ok r ->
  ~ (400 <= status_code r < 600)%Z ->
  status_code r <> 204%Z ->
  json r = Ok v ->
  outcome (_request net self method endpoint kwargs) = Ok v.
Proof.
  intros H Hok H204 Hjson. apply ok_true_iff in Hok.
  rewrite (request_success H Hok), Hjson.
  apply Z.eqb_neq in H204. now rewrite H204.
Qed.

(** X12. An error response whose body decodes to something that is not an
    object (an array, a string, a number, [null]) makes [_request] raise an
    [AttributeError], not a [RapidWireAPIError]. *)
Theorem request_error_non_object_body (r : Response) (body : pyval) :
  net (_session self) method (base_url self ++ endpoint) kwargs = Ok r ->
  (400 <= status_code r < 600)%Z ->
  json r = Ok body ->
  is_dict body = false ->
  outcome (_request net self method endpoint kwargs) = Raise AttributeError.
Proof.
  intros H Hok Hjson Hbody. apply ok_iff in Hok.
  rewrite (request_error H Hok), Hjson.
  destruct body; try reflexivity; discriminate.
Qed.

(** X13. No exception of [requests] leaves [_request]: whatever the session
    and [json()] raise, a [RequestException] (a [JSONDecodeError] included)
    is never what the caller gets. *)
Theorem request_never_leaks_requests_exception (e : exn) :
  outcome (_request net self method endpoint kwargs) = Raise e ->
  is_RequestException e = false.
Proof.
  destruct (net (_session self) method (base_url self ++ endpoint) kwargs)
    as [r | e0] eqn:H.
  - destruct (ok r) eqn:Hok.
    + rewrite (request_success H Hok). cbn [outcome snd].
      destruct (status_code r =? 204)%Z; [discriminate |].
      destruct (json r) as [v | e1]; [discriminate |].
      destruct (is_RequestException e1) eqn:E1; intros [= <-];
        [reflexivity | exact E1].
    + rewrite (request_error H Hok). cbn [outcome snd].
      destruct (json r) as [body | e1].
      * destruct body; simpl; try (intros [= <-]; reflexivity).
        destruct (dict_get _ _); intros [= <-]; reflexivity.
      * destruct e1; intros [= <-]; reflexivity.
  - rewrite (request_raised H). cbn [outcome snd].
    destruct (is_RequestException e0) eqn:E0; intros [= <-];
      [reflexivity | exact E0].
Qed.

(** X14. When the session raises nothing but exceptions of [requests] and
    [json()] nothing but its decoding error, an exception of [_request] is
    a [RapidWireAPIError] whose status lies in 400..599 (the status of the
    response, or the fixed 500), or the [AttributeError] of a decoded error
    body that is no object. *)
Theorem request_exception_kinds (e : exn) :
  (forall e0,
      net (_session self) method (base_url self ++ endpoint) kwargs = Raise e0 ->
      is_RequestException e0 = true) ->
  (forall r e1,
      net (_session self) method (base_url self ++ endpoint) kwargs = Ok r ->
      json r = Raise e1 -> is_JSONDecodeError e1 = true) ->
  outcome (_request net self method endpoint kwargs) = Raise e ->
  e = AttributeError
  \/ exists status detail,
       e = RapidWireAPIError status detail /\ (400 <= status < 600)%Z.
Proof.
  intros Hnet Hjson.
  destruct (net (_session self) method (base_url self ++ endpoint) kwargs)
    as [r | e0] eqn:H.
  - specialize (Hjson r). destruct (ok r) eqn:Hok.
    + rewrite (request_success H Hok). cbn [outcome snd].
      destruct (status_code r =? 204)%Z; [discriminate |].
      destruct (json r) as [v | e1]; [discriminate |].
      specialize (Hjson e1 eq_refl eq_refl).
      destruct e1; try discriminate. simpl. intros [= <-].
      right. do 2 eexists. split; [reflexivity | lia].
    + rewrite (request_error H Hok). cbn [outcome snd].
      apply ok_iff in Hok.
      destruct (json r) as [body | e1].
      * destruct body; simpl; try (intros [= <-]; now left).
        destruct (dict_get _ _); intros [= <-]; right; eauto.
      * specialize (Hjson e1 eq_refl eq_refl).
        destruct e1; try discriminate. intros [= <-]. right. eauto.
  - rewrite (request_raised H), (Hnet e0 eq_refl). cbn [outcome snd].
    intros [= <-]. right. do 2 eexists. split; [reflexivity | lia].
Qed.

(** X22. A response with a status in 400..599 always makes [_request]
    raise: whatever the body is, and whatever [json()] does with it, no
    value is returned. *)
Theorem request_error_status_always_raises (r : Response) :
  net (_session self) method (base_url self ++ endpoint) kwargs = Ok r ->
  (400 <= status_code r < 600)%Z ->
  exists e, outcome (_request net self method endpoint kwargs) = Raise e.
Proof.
  intros H Hok. apply ok_iff in Hok. rewrite (request_error H Hok).
  cbn [outcome snd]. destruct (json r) as [body | e1].
  - destruct (call_get body _ _); eexists; reflexivity.
  - destruct e1; eexists; reflexivity.
Qed.

End TransportMore.

(** ** Records, further *)

Lemma mapM_ext (A B : Type) (f g : A -> result B) (l : list A) :
  (forall a, f a = g a) -> mapM f l = mapM g l.
Proof.
  intros H. induction l as [| a l IH]; simpl; [reflexivity |].
  now rewrite H, IH.
Qed.

Lemma forallb_same_members (A : Type) (p : A -> bool) (l1 l2 : list A) :
  (forall a, In a l1 <-> In a l2) -> forallb p l1 = forallb p l2.
Proof.
  intros H. apply eq_true_iff_eq. rewrite !forallb_forall.
  split; intros Hall a Ha; apply Hall, H, Ha.
Qed.

(** X15. The record built from an object depends on the object as a
    mapping only: two objects that bind every key alike, in whatever order
    their keys stand, give the same result, be it a record or an error. *)
Theorem construct_ignores_key_order (c : dataclass) (kw1 kw2 : dict) :
  (forall k, dict_get kw1 k = dict_get kw2 k) ->
  construct c (PDict kw1) = construct c (PDict kw2).
Proof.
  intros H. unfold construct, dataclass_init.
  rewrite (@forallb_same_members _ (is_field c) (dict_keys kw1) (dict_keys kw2)).
  2:{ intros k. rewrite !dict_get_In, H. reflexivity. }
  rewrite (@mapM_ext _ _ (field_value kw1) (field_value kw2)); [reflexivity |].
  intros f. unfold field_value. now rewrite H.
Qed.

(** ** Construction, further *)

Lemma rstrip_only_slashes (n : nat) : rstrip 47 (repeat 47%N n) = [].
Proof. induction n as [| n IH]; simpl; [reflexivity | now rewrite IH]. Qed.

Lemma rstrip_trailing (s : str) (n : nat) :
  rstrip 47 (s ++ repeat 47%N n) = rstrip 47 s.
Proof.
  induction s as [| c s IH]; simpl.
  - apply rstrip_only_slashes.
  - now rewrite IH.
Qed.

Lemma rstrip_no_slash (s : str) : ~ ends_with_slash (rstrip 47 s).
Proof.
  induction s as [| c s IH]; simpl.
  - intros [[| x xs] H]; discriminate.
  - destruct (rstrip 47 s) as [| y ys] eqn:E.
    + destruct (N.eqb_spec c 47) as [-> | Hc].
      * intros [[| x xs] H]; discriminate.
      * intros [[| x [| x' xs]] H]; simpl in H; try discriminate. congruence.
    + intros [[| x xs] H]; simpl in H; [discriminate |].
      apply IH. exists xs. congruence.
Qed.

Lemma rstrip_unchanged (s : str) : ~ ends_with_slash s -> rstrip 47 s = s.
Proof.
  induction s as [| c s IH]; simpl; intros H; [reflexivity |].
  destruct s as [| d s'].
  - simpl. destruct (N.eqb_spec c 47) as [-> | ]; [| reflexivity].
    destruct H. now exists [].
  - rewrite IH; [reflexivity |].
    intros [x Hx]. apply H. exists (c :: x). simpl. now rewrite Hx.
Qed.

Section ConstructionMore.

Variable net : Session -> str -> str -> dict -> result Response.
Variable fmt : pyval -> str.
Variable out : str -> result unit.

Lemma version_request_events (self : RapidWireClient) :
  events (get_version net self)
  = [Sent (_session self) (lit "GET") (base_url self ++ lit "/version") []].
Proof. unfold get_version. rewrite events_bind_lift. apply request_events. Qed.

Ltac at_most_one_line :=
  cbn; unfold print;
  repeat match goal with
         | |- context [is_RapidWireAPIError ?e] =>
             destruct (is_RapidWireAPIError e); cbn
         | |- context [out ?line] => destruct (out line); cbn
         end;
  first [ exists []; split; [reflexivity | simpl; lia]
        | eexists (cons _ nil); split; [reflexivity | simpl; lia] ].

Lemma check_version_events (self : RapidWireClient) :
  exists lines,
    events (_check_version net fmt out self)
    = Sent (_session self) (lit "GET") (base_url self ++ lit "/version") []
      :: map Printed lines
    /\ (List.length lines <= 1)%nat.
Proof.
  pose proof (version_request_events self) as Ht.
  unfold _check_version.
  destruct (get_version net self) as [t [resp | e]];
    unfold events in Ht; simpl in Ht; subst t.
  - cbn [io_bind lift].
    destruct (getattr resp (lit "details")) as [details | e1].
    2:{ cbn. destruct (is_RapidWireAPIError e1); at_most_one_line. }
    cbn [io_bind lift].
    destruct (call_get details (lit "version") PNone) as [version | e2].
    2:{ cbn. destruct (is_RapidWireAPIError e2); at_most_one_line. }
    destruct (truthy version); cbn [negb]; [| at_most_one_line].
    rewrite split_first. cbn [io_bind lift].
    destruct (call_split version 46) as [parts | e3].
    2:{ cbn. destruct (is_RapidWireAPIError e3); at_most_one_line. }
    cbn [io_bind lift].
    destruct (list_getitem parts 0) as [major | e4].
    2:{ cbn. destruct (is_RapidWireAPIError e4); at_most_one_line. }
    destruct (str_eqb _ _); cbn [negb]; at_most_one_line.
  - cbn. destruct (is_RapidWireAPIError e); at_most_one_line.
Qed.

(** X16. Construction with an empty key raises a [ValueError] before
    anything is sent.  With any other key it sends exactly one request, a GET
    of the version path under the base address without its trailing
    slashes, carrying the key and the content type; and it prints at most
    one line, whatever the network answers and whether or not construction
    succeeds. *)
Theorem init_sends_one_version_request (api_key url : str) :
  (api_key = [] ->
   exists message,
     __init__ net fmt out api_key url = ([], Raise (ValueError message)))
  /\ (api_key <> [] ->
      exists lines,
        events (__init__ net fmt out api_key url)
        = Sent {| headers := [ (lit "API-Key", api_key);
                               (lit "Content-Type", lit "application/json") ] |}
            (lit "GET") (rstrip 47 url ++ lit "/version") []
          :: map Printed lines
        /\ (List.length lines <= 1)%nat).
Proof.
  split.
  - intros ->. eexists. reflexivity.
  - intros Hkey. rewrite (init_with_key net fmt out url Hkey).
    rewrite events_bind_silent by reflexivity.
    apply (check_version_events (client_of api_key url)).
Qed.

Lemma init_returns_client_of (api_key url : str) (c : RapidWireClient) :
  outcome (__init__ net fmt out api_key url) = Ok c -> c = client_of api_key url.
Proof.
  destruct api_key as [| k ks]; [discriminate |].
  rewrite (@init_with_key net fmt out (k :: ks) url) by discriminate.
  rewrite outcome_bind.
  destruct (outcome (_check_version _ _ _ _)); simpl; congruence.
Qed.

(** X17. Trailing slashes of the base address make no difference to
    construction; the client that is returned has the key it was given, a
    base address that does not end with a slash, and, when the address given
    did not end with one, that very address. *)
Theorem init_strips_trailing_slashes (api_key url : str) :
  (forall n, __init__ net fmt out api_key (url ++ repeat 47%N n)
             = __init__ net fmt out api_key url)
  /\ (forall c,
         outcome (__init__ net fmt out api_key url) = Ok c ->
         ~ ends_with_slash (base_url c)
         /\ (~ ends_with_slash url -> base_url c = url)
         /\ dict_get (headers (_session c)) (lit "API-Key") = Some api_key).
Proof.
  split.
  - intros n. unfold __init__. now rewrite rstrip_trailing.
  - intros c Hc. apply init_returns_client_of in Hc. subst c. simpl.
    split; [apply rstrip_no_slash |]. split; [apply rstrip_unchanged |].
    reflexivity.
Qed.


(** X19. A version that is true and is not a string (a number, a list, an
    object) has no [split]: construction raises an [AttributeError]. *)
Theorem init_raises_on_non_string_version (api_key url : str)
  (resp details version : pyval) :
  api_key <> [] ->
  outcome (get_version net (client_of api_key url)) = Ok resp ->
  getattr resp (lit "details") = Ok details ->
  call_get details (lit "version") PNone = Ok version ->
  truthy version = true ->
  is_str version = false ->
  outcome (__init__ net fmt out api_key url) = Raise AttributeError.
Proof.
  intros Hkey Hv Hd Hs Htrue Hstr.
  destruct (get_version net (client_of api_key url)) as [t r] eqn:E.
  unfold outcome in Hv. simpl in Hv. subst r.
  rewrite (init_with_key net fmt out url Hkey). unfold _check_version. rewrite E.
  cbn [io_bind lift]. rewrite Hd.
  cbn [io_bind lift]. rewrite Hs, Htrue. cbn [negb].
  rewrite split_first. cbn [io_bind lift].
  destruct version; try discriminate; reflexivity.
Qed.

End ConstructionMore.

(** ** The further properties at concrete inputs *)

Lemma operation_errors_propagate_witness :
  outcome (perform refused bot GetBalance)
  = Raise (RapidWireAPIError 500 refused_detail).
Proof.
  apply (@operation_errors_propagate refused bot GetBalance).
  vm_compute. reflexivity.
Defined.

Lemma no_content_fails_every_mapping_witness :
  outcome (perform no_content bot (CancelSellOrder 7)) = Raise TypeError.
Proof.
  apply (@no_content_fails_every_mapping no_content bot (CancelSellOrder 7)
           (received 204 (dq "") expecting_value));
    reflexivity.
Defined.

Lemma operation_result_is_instance_witness :
  is_instance Balance (PObj (lit "Balance") balance_scenario_object).
Proof.
  apply (@operation_result_is_instance balance_scenario bot GetBalance).
  vm_compute. reflexivity.
Defined.

Lemma mapping_failure_is_not_api_error_witness :
  (TypeError = TypeError \/ exists k, TypeError = KeyError k)
  /\ is_RapidWireAPIError TypeError = false.
Proof.
  apply (@mapping_failure_is_not_api_error balance_with_extra bot GetBalance
           (PDict balance_with_extra_object));
    vm_compute; reflexivity.
Defined.

Lemma success_response_details_default_witness :
  outcome (perform order_cancelled bot (CancelSellOrder 7))
  = Ok (PObj (lit "SuccessResponse")
          [ (lit "message", PStr (lit "Order cancelled"));
            (lit "details", PNone) ]).
Proof.
  apply (@success_response_details_default order_cancelled bot
           (CancelSellOrder 7)
           [(lit "message", PStr (lit "Order cancelled"))]
           (PStr (lit "Order cancelled"))).
  - reflexivity.
  - vm_compute. reflexivity.
  - vm_compute. reflexivity.
  - intros k [<- | []]. now left.
Defined.

Lemma hydration_missing_key_witness :
  outcome (get_config config_without_currency bot)
  = Raise (KeyError (lit "base_currency")).
Proof.
  apply (proj1 (@hydration_missing_key config_without_currency bot
                  [(lit "decimal_places", PInt 2)]));
    vm_compute; reflexivity.
Defined.

Lemma config_hydrates_base_currency_witness :
  outcome (get_config config_scenario bot)
  = Ok (PObj (lit "Config")
          [ (lit "decimal_places", PInt 2);
            (lit "base_currency",
             PObj (lit "CurrencyInfo") config_scenario_currency) ]).
Proof.
  refine (proj1
            (@config_hydrates_base_currency config_scenario bot
               config_scenario_object (PDict config_scenario_currency)
               (PInt 2) _ _ _ _)
            (PObj (lit "CurrencyInfo") config_scenario_currency) _).
  - vm_compute. reflexivity.
  - vm_compute. reflexivity.
  - vm_compute. reflexivity.
  - intros k Hk. vm_compute in Hk |- *. tauto.
  - vm_compute. reflexivity.
Defined.

Lemma listing_is_all_or_nothing_witness :
  outcome (perform my_orders_scenario bot GetMyStockOrders)
  = Ok (PList [PObj (lit "UserOrder") my_orders_scenario_entry]).
Proof.
  apply (proj1 (@listing_is_all_or_nothing my_orders_scenario bot
                  GetMyStockOrders [PDict my_orders_scenario_entry]
                  eq_refl eq_refl)).
  exists [PObj (lit "UserOrder") my_orders_scenario_entry].
  split; [reflexivity |]. repeat constructor.
Defined.

Lemma request_returns_decoded_body_witness :
  outcome (_request redirect_with_object bot (lit "GET") (lit "/config") [])
  = Ok (PDict []).
Proof.
  apply (@request_returns_decoded_body redirect_with_object bot (lit "GET")
           (lit "/config") [] (received 302 (dq "{}") expecting_value)).
  - reflexivity.
  - simpl. lia.
  - simpl. lia.
  - vm_compute. reflexivity.
Defined.

Lemma request_error_non_object_body_witness :
  outcome (_request error_with_array bot (lit "GET") (lit "/config") [])
  = Raise AttributeError.
Proof.
  apply (@request_error_non_object_body error_with_array bot (lit "GET")
           (lit "/config") [] (received 404 (dq "[1]") expecting_value)
           (PList [PInt 1])).
  - reflexivity.
  - simpl. lia.
  - vm_compute. reflexivity.
  - reflexivity.
Defined.

Lemma request_never_leaks_requests_exception_witness :
  is_RequestException (RapidWireAPIError 500 refused_detail) = false.
Proof.
  apply (@request_never_leaks_requests_exception refused bot (lit "GET")
           (lit "/config") []).
  vm_compute. reflexivity.
Defined.

Lemma request_exception_kinds_witness :
  RapidWireAPIError 500 refused_detail = AttributeError
  \/ exists status detail,
       RapidWireAPIError 500 refused_detail = RapidWireAPIError status detail
       /\ (400 <= status < 600)%Z.
Proof.
  apply (@request_exception_kinds refused bot (lit "GET") (lit "/config") []).
  - intros e0 [= <-]. reflexivity.
  - intros r e1 H. discriminate H.
  - vm_compute. reflexivity.
Defined.

Lemma construct_ignores_key_order_witness :
  construct Balance
    (PDict [ (lit "stocks", PDict [(lit "ACME", PInt 5)]);
             (lit "currencies", PDict [(lit "USD", PInt 100)]) ])
  = construct Balance (PDict balance_scenario_object).
Proof.
  apply construct_ignores_key_order.
  intros k. unfold balance_scenario_object. cbn [dict_get].
  destruct (str_eqb (lit "stocks") k) eqn:E1;
    destruct (str_eqb (lit "currencies") k) eqn:E2; try reflexivity.
  apply str_eqb_eq in E1, E2. rewrite <- E2 in E1. vm_compute in E1.
  discriminate E1.
Defined.

Lemma init_sends_one_version_request_witness :
  exists lines,
    events (__init__ version_2_3_1 format_constant utf8_stdout
              (lit "secret") default_base_url)
    = Sent {| headers := [ (lit "API-Key", lit "secret");
                           (lit "Content-Type", lit "application/json") ] |}
        (lit "GET") (rstrip 47 default_base_url ++ lit "/version") []
      :: map Printed lines
    /\ (List.length lines <= 1)%nat.
Proof.
  apply (proj2 (@init_sends_one_version_request version_2_3_1 format_constant
                  utf8_stdout (lit "secret") default_base_url)).
  vm_compute. discriminate.
Defined.

Lemma init_strips_trailing_slashes_witness :
  ~ ends_with_slash (base_url bot)
  /\ (~ ends_with_slash default_base_url -> base_url bot = default_base_url)
  /\ dict_get (headers (_session bot)) (lit "API-Key") = Some (lit "secret").
Proof.
  apply (proj2 (@init_strips_trailing_slashes version_2_3_1 format_constant
                  utf8_stdout (lit "secret") default_base_url) bot).
  vm_compute. reflexivity.
Defined.


Lemma init_raises_on_non_string_version_witness :
  outcome (__init__ version_as_number format_constant utf8_stdout
             (lit "secret") default_base_url)
  = Raise AttributeError.
Proof.
  apply (@init_raises_on_non_string_version version_as_number format_constant
           utf8_stdout (lit "secret") default_base_url
           (PObj (lit "SuccessResponse")
              [ (lit "message", PStr (lit "RapidWire API"));
                (lit "details", PDict [(lit "version", PInt 2)]) ])
           (PDict [(lit "version", PInt 2)]) (PInt 2)).
  - vm_compute. discriminate.
  - vm_compute. reflexivity.
  - vm_compute. reflexivity.
  - vm_compute. reflexivity.
  - reflexivity.
  - reflexivity.
Defined.

Lemma init_survives_transport_failure_witness :
  outcome (__init__ refused format_constant utf8_stdout (lit "secret")
             default_base_url)
  = Ok bot
  /\ stdout (events (__init__ refused format_constant utf8_stdout
                       (lit "secret") default_base_url))
     = [warning_unreachable
          (message format_constant 500
             (PStr (lit "Request failed: " ++ lit "Connection refused")))].
Proof.
  refine (proj1
            (@init_survives_transport_failure refused format_constant
               utf8_stdout (lit "secret") default_base_url
               (lit "Connection refused") _ _) _).
  - vm_compute. discriminate.
  - reflexivity.
  - vm_compute. reflexivity.
Defined.

Lemma init_survives_unknown_version_witness :
  outcome (__init__ version_details_empty format_constant utf8_stdout
             (lit "secret") default_base_url)
  = Ok bot
  /\ stdout (events (__init__ version_details_empty format_constant
                       utf8_stdout (lit "secret") default_base_url))
     = [warning_unknown].
Proof.
  refine (proj1
            (@init_survives_unknown_version version_details_empty
               format_constant utf8_stdout (lit "secret") default_base_url
               (PObj (lit "SuccessResponse")
                  [ (lit "message", PStr (lit "RapidWire API"));
                    (lit "details", PDict []) ])
               (PDict []) PNone _ _ _ _ _) _).
  - vm_compute. discriminate.
  - vm_compute. reflexivity.
  - vm_compute. reflexivity.
  - reflexivity.
  - reflexivity.
  - vm_compute. reflexivity.
Defined.

Lemma operation_sends_one_request_witness :
  events (perform order_cancelled bot (CancelSellOrder 7))
  = [Sent (_session bot) (req_method cancel_order_7)
       (base_url bot ++ req_endpoint cancel_order_7)
       (req_kwargs cancel_order_7)].
Proof.
  apply (proj1 (@operation_sends_one_request order_cancelled bot
                  (CancelSellOrder 7))
           cancel_order_7).
  vm_compute. reflexivity.
Defined.

Lemma request_error_status_always_raises_witness :
  exists e,
    outcome (_request error_with_array bot (lit "GET") (lit "/config") [])
    = Raise e.
Proof.
  apply (@request_error_status_always_raises error_with_array bot (lit "GET")
           (lit "/config") [] (received 404 (dq "[1]") expecting_value)).
  - reflexivity.
  - simpl. lia.
Defined.

(** The warnings on a standard output that cannot write them, and the order
    id that the path cannot hold. *)

Example transport_failure_on_latin1_stdout :
  outcome (__init__ refused format_constant latin1_stdout (lit "secret")
             default_base_url)
  = Raise UnicodeEncodeError.
Proof. vm_compute. reflexivity. Qed.

Example unknown_version_on_latin1_stdout :
  outcome (__init__ version_details_empty format_constant latin1_stdout
             (lit "secret") default_base_url)
  = Raise UnicodeEncodeError.
Proof. vm_compute. reflexivity. Qed.

Example surrogate_detail_on_utf8_stdout :
  outcome (__init__ error_with_surrogate_detail format_constant utf8_stdout
             (lit "secret") default_base_url)
  = Raise UnicodeEncodeError.
Proof. vm_compute. reflexivity. Qed.

Example cancel_huge_order_sends_nothing :
  perform order_cancelled bot (CancelSellOrder huge_order_id)
  = ([], Raise (ValueError int_str_limit_message)).
Proof.
  apply perform_without_request, request_of_raises.
  exists huge_order_id. split; [reflexivity |]. split; [| reflexivity].
  unfold huge_order_id, int_max_str_digits.
  rewrite Z.abs_eq; [apply Z.le_refl | apply Z.pow_nonneg; discriminate].
Qed.
